(** * Power monitor: the Tuya prober, its token cache and the poll cycle

    A shallow embedding of [tuya.js] (the version with the token expiry
    watermark and [makeTuyaRequest]) and of the [POST /monitor] handler of
    the server, followed by the properties the specification states about
    them.

    Conventions of the embedding.
    - JavaScript [null]/[undefined] are [None]; a string is truthy when it
      is not empty, a number when it is not zero.
    - Integers of the provider's JSON (codes, lifetimes, raw telemetry) are
      [Z]; the scaled readings [raw / 10] are rationals ([Q]).
    - The module-level variables [accessToken] and [tokenExpiryTime], the
      wall clock, the provider and the database are fields of one [World]
      that every asynchronous function threads through; [throw] and
      [try]/[catch] are the [Thrown] outcome of the monad [M].
    - [crypto] and [JSON.stringify] are parameters of the development. *)

From Stdlib Require Import ZArith QArith List String Ascii Bool Arith Lia.
From Stdlib Require Import Sorting.Permutation Sorting.Sorted DecimalString.
From Stdlib Require OrderedTypeEx.
From Equations Require Import Equations.
Import ListNotations.

Open Scope string_scope.
Open Scope Z_scope.

(** ** JavaScript helpers *)

Module Js.

(** Truthiness of a possibly absent string: [s ? .. : ..], [s || d]. *)
Definition truthy_str (s : option string) : bool :=
  match s with
  | Some x => negb (x =? "")%string
  | None => false
  end.

(** Truthiness of a possibly absent number. *)
Definition truthy_num (n : option Z) : bool :=
  match n with
  | Some z => negb (z =? 0)
  | None => false
  end.

(** [a || b] on possibly absent strings. *)
Definition or_str (a b : option string) : option string :=
  if truthy_str a then a else b.

(** [a || b] on possibly absent numbers. *)
Definition or_num (a b : option Z) : option Z :=
  if truthy_num a then a else b.

(** [a || 'literal'] where the literal is a string. *)
Definition or_lit (a : option string) (d : string) : string :=
  match a with
  | Some x => if (x =? "")%string then d else x
  | None => d
  end.

(** [n.toString()] for an integer. *)
Definition toString (n : Z) : string :=
  NilZero.string_of_int (Z.to_int n).

(** The line feed of a template literal. *)
Definition LF : string := String (ascii_of_nat 10) EmptyString.

(** [Array.prototype.join]. *)
Definition join (sep : string) (l : list string) : string :=
  String.concat sep l.

Definition upper_ascii (c : ascii) : ascii :=
  let n := nat_of_ascii c in
  if (97 <=? n)%nat && (n <=? 122)%nat then ascii_of_nat (n - 32) else c.

Definition lower_ascii (c : ascii) : ascii :=
  let n := nat_of_ascii c in
  if (65 <=? n)%nat && (n <=? 90)%nat then ascii_of_nat (n + 32) else c.

Fixpoint map_string (f : ascii -> ascii) (s : string) : string :=
  match s with
  | EmptyString => EmptyString
  | String c r => String (f c) (map_string f r)
  end.

Definition toUpperCase : string -> string := map_string upper_ascii.
Definition toLowerCase : string -> string := map_string lower_ascii.

(** [Array.prototype.sort()] without a comparator: the elements are
    compared as strings, and the sort is stable.  An entry [[k, v]]
    converts to the string [k,v]. *)
Definition entry_key (e : string * string) : string :=
  fst e ++ "," ++ snd e.

Definition entry_le (a b : string * string) : bool :=
  String.leb (entry_key a) (entry_key b).

Fixpoint insert_entry (e : string * string) (l : list (string * string))
  : list (string * string) :=
  match l with
  | [] => [e]
  | x :: r => if entry_le e x then e :: l else x :: insert_entry e r
  end.

Fixpoint sort_entries (l : list (string * string)) : list (string * string) :=
  match l with
  | [] => []
  | e :: r => insert_entry e (sort_entries r)
  end.

End Js.

(** ** Data of the provider API *)

(** A query object, as the list of its entries (values already
    converted to strings, as [join] does). *)
Definition Query := list (string * string).

(** The [result] member of a provider envelope.  The three endpoints give
    it three shapes; [NoResult] is an absent or [null] member. *)
Inductive Result :=
| NoResult
| TokenResult (access_token : option string) (expire_time : option Z)
| DeviceResult (online : option bool) (active_time : option Z)
| StatusResult (items : list (string * Z)).

(** [result.access_token]; reading a member of [undefined] is a TypeError
    ([None] below). *)
Definition get_access_token (r : Result) : option (option string) :=
  match r with
  | NoResult => None
  | TokenResult tok _ => Some tok
  | _ => Some None
  end.

Definition get_expire_time (r : Result) : option Z :=
  match r with
  | TokenResult _ e => e
  | _ => None
  end.

(** [deviceInfo?.online]: [Some true], [Some false], or anything else. *)
Definition get_online (deviceInfo : option Result) : option bool :=
  match deviceInfo with
  | Some (DeviceResult o _) => o
  | _ => None
  end.

(** The provider envelope [{success, code, msg, result}]. *)
Record Envelope := {
  success : bool;
  code : option Z;
  msg : option string;
  result : Result }.

(** An axios response; [data] is [None] for a falsy body. *)
Record Response := {
  status : Z;
  data : option Envelope }.

(** A JavaScript [Error]: axios sets [code] on network failures and
    [response] on HTTP error statuses. *)
Record Error := {
  message : string;
  err_code : option string;
  response : option Response }.

Definition new_Error (m : string) : Error :=
  {| message := m; err_code := None; response := None |}.

(** What the provider does with one HTTP call: time passes, then the
    promise rejects or resolves. *)
Record Answer := {
  latency : N;
  reply : Error + Response }.

(** The result of one probe. *)
Record Observation := {
  isOnline : bool;
  responseTimeMs : option Z;
  powerConsumptionW : option Q;
  voltageV : option Q;
  error : option string;
  deviceId : string;
  deviceName : option string }.

(** One row of the [power_status] table, as [savePowerStatus] writes it. *)
Record Row := {
  row_device_id : string;
  row_device_name : option string;
  row_is_online : bool;
  row_response_time_ms : option Z;
  row_power_consumption_w : option Q;
  row_error_message : option string }.

(** ** Provider behaviours used in the scenarios *)

Definition ok_envelope (r : Result) : Envelope :=
  {| success := true; code := None; msg := None; result := r |}.

Definition error_envelope (c : Z) (m : string) : Envelope :=
  {| success := false; code := Some c; msg := Some m; result := NoResult |}.

(** The call resolves with HTTP 200 and the envelope after [ms]. *)
Definition resolves (ms : N) (d : Envelope) : Answer :=
  {| latency := ms; reply := inr {| status := 200; data := Some d |} |}.

(** The call is aborted by the axios timeout. *)
Definition times_out (ms : N) : Answer :=
  {| latency := ms;
     reply := inl {| message := "timeout of 15000ms exceeded";
                     err_code := Some "ECONNABORTED";
                     response := None |} |}.

(** A provider that gives the listed answers in turn and then times out. *)
Definition script (answers : list Answer) (n : nat) : Answer :=
  nth n answers (times_out 15000).

(** A token grant with a lifetime in seconds. *)
Definition grants (tok : string) (lifetime : Z) : Answer :=
  resolves 120 (ok_envelope (TokenResult (Some tok) (Some lifetime))).

(** The metadata of a device with the given [online] flag. *)
Definition metadata (online : bool) : Answer :=
  resolves 80 (ok_envelope (DeviceResult (Some online) None)).

(** The telemetry of a device. *)
Definition telemetry (items : list (string * Z)) : Answer :=
  resolves 95 (ok_envelope (StatusResult items)).

(** The error envelope [token invalid]. *)
Definition token_invalid : Answer :=
  resolves 60 (error_envelope 1010 "token invalid").

(** Stand-ins for the digests, for running the scenarios. *)
Definition plain_digest (s : string) : string := s.

Definition plain_mac (key s : string) : string := key ++ ":" ++ s.

(** A database that stores every row, and one that rejects every write. *)
Definition db_up (n : nat) : string + Z := inr (Z.of_nat (S n)).

Definition db_down (n : nat) : string + Z := inl "ECONNREFUSED".

Section Tuya.

(** Environment and libraries. *)
Variable ACCESS_ID ACCESS_KEY API_BASE_URL : string.
Variable DEVICE_IDS : list (string * string).
Variable sha256_hex : string -> string.
Variable hmac_sha256_hex : string -> string -> string.
Variable Body : Type.
Variable JSON_stringify : Body -> string.
Variable empty_object : Body.

(** An HTTP request as axios sends it. *)
Record Request := {
  req_url : string;
  req_method : string;
  req_client_id : string;
  req_access_token : option string;
  req_sign : string;
  req_t : string;
  req_params : Query;
  req_body : option Body;
  req_timeout : Z }.

(** ** The world *)

Record World := {
  accessToken : option string;
  tokenExpiryTime : option Z;
  now : N;
  network : nat -> Answer;
  sent : list Request;
  database : nat -> string + Z;
  db_calls : nat;
  power_status : list Row }.

Definition set_accessToken (v : option string) (w : World) : World :=
  {| accessToken := v; tokenExpiryTime := tokenExpiryTime w; now := now w;
     network := network w; sent := sent w; database := database w;
     db_calls := db_calls w; power_status := power_status w |}.

Definition set_tokenExpiryTime (v : option Z) (w : World) : World :=
  {| accessToken := accessToken w; tokenExpiryTime := v; now := now w;
     network := network w; sent := sent w; database := database w;
     db_calls := db_calls w; power_status := power_status w |}.

(** One HTTP exchange: the request is recorded and the clock advances. *)
Definition exchange (r : Request) (w : World) : World :=
  {| accessToken := accessToken w; tokenExpiryTime := tokenExpiryTime w;
     now := (now w + latency (network w (List.length (sent w))))%N;
     network := network w; sent := r :: sent w; database := database w;
     db_calls := db_calls w; power_status := power_status w |}.

(** One call of the database driver, with the row it stores if any. *)
Definition db_step (rows : list Row) (w : World) : World :=
  {| accessToken := accessToken w; tokenExpiryTime := tokenExpiryTime w;
     now := now w; network := network w; sent := sent w;
     database := database w; db_calls := S (db_calls w);
     power_status := rows ++ power_status w |}.

(** ** The monad of asynchronous functions *)

Inductive Completion (A : Type) :=
| Returned (a : A)
| Thrown (e : Error).
Arguments Returned {A} a.
Arguments Thrown {A} e.

Definition M (A : Type) : Type := World -> Completion A * World.

Definition ret {A} (a : A) : M A := fun w => (Returned a, w).

Definition throw {A} (e : Error) : M A := fun w => (Thrown e, w).

Definition bind {A B} (c : M A) (k : A -> M B) : M B :=
  fun w =>
    match c w with
    | (Returned a, w') => k a w'
    | (Thrown e, w') => (Thrown e, w')
    end.

Definition try_catch {A} (c : M A) (h : Error -> M A) : M A :=
  fun w =>
    match c w with
    | (Returned a, w') => (Returned a, w')
    | (Thrown e, w') => h e w'
    end.

Definition gets {A} (f : World -> A) : M A := fun w => (Returned (f w), w).

Definition modify (f : World -> World) : M unit := fun w => (Returned tt, f w).

Notation "x <- c ;; k" := (bind c (fun x => k))
  (at level 61, c at next level, right associativity).
Notation "c ;;; k" := (bind c (fun _ => k))
  (at level 61, right associativity).

(** [Date.now()]: milliseconds since the epoch. *)
Definition Date_now : M Z := gets (fun w => Z.of_N (now w)).

(** [await axios.get/post/put(...)]. *)
Definition axios (r : Request) : M Response :=
  fun w =>
    match reply (network w (List.length (sent w))) with
    | inl e => (Thrown e, exchange r w)
    | inr resp => (Returned resp, exchange r w)
    end.

(** ** Signer *)

(** [signRequest(path, method, query = {}, body = {}, token = null)].
    It reads the clock and the cached token and changes nothing, so it
    takes the world and returns [{ t, sign }]. *)
Definition signRequest (path method : string) (query : Query) (body : Body)
    (token : option string) (w : World) : string * string :=
  let t := Js.toString (Z.of_N (now w)) in
  let bodyStr :=
    if (method =? "POST")%string || (method =? "PUT")%string
    then JSON_stringify body else "" in
  let contentHash := Js.toLowerCase (sha256_hex bodyStr) in
  let querySorted :=
    Js.join "&"
      (map (fun v => Js.join "=" [fst v; snd v]) (Js.sort_entries query)) in
  let urlForSign :=
    if negb (querySorted =? "")%string
    then path ++ "?" ++ querySorted else path in
  let stringToSign :=
    method ++ Js.LF ++ contentHash ++ Js.LF ++ Js.LF ++ urlForSign in
  let signStr :=
    ACCESS_ID
      ++ Js.or_lit (Js.or_str token (accessToken w)) ""
      ++ t ++ stringToSign in
  let sign := Js.toUpperCase (hmac_sha256_hex ACCESS_KEY signStr) in
  (t, sign).

(** ** Token cache *)

Definition token_error_prefix : string :=
  "Не удалось получить токен доступа: ".

(** The message of the TypeError raised by [undefined.access_token]. *)
Definition TypeError_access_token : string :=
  "Cannot read properties of undefined (reading 'access_token')".

(** The [try]/[catch] block of [getAccessToken]: the signed fetch against
    the token endpoint. *)
Definition fetchToken : M (option string) :=
  try_catch
    (let method := "GET" in
     let path := "/v1.0/token" in
     let query := [("grant_type", "1")] in
     ts <- gets (signRequest path method query empty_object None) ;;
     let '(t, sign) := ts in
     response <- axios {| req_url := API_BASE_URL ++ path;
                          req_method := method;
                          req_client_id := ACCESS_ID;
                          req_access_token := None;
                          req_sign := sign;
                          req_t := t;
                          req_params := query;
                          req_body := None;
                          req_timeout := 10000 |} ;;
     match data response with
     | Some d =>
         if success d then
           match get_access_token (result d) with
           | None => throw (new_Error TypeError_access_token)
           | Some tok =>
               modify (set_accessToken tok) ;;;
               let expiresIn :=
                 match Js.or_num (get_expire_time (result d)) (Some 7200) with
                 | Some e => e * 1000
                 | None => 7200 * 1000
                 end in
               n <- Date_now ;;
               modify (set_tokenExpiryTime
                         (Some (n + expiresIn - 5 * 60 * 1000))) ;;;
               gets accessToken
           end
         else throw (new_Error (Js.or_lit (msg d) "Unknown error"))
     | None => throw (new_Error "Unknown error")
     end)
    (fun error =>
       modify (set_accessToken None) ;;;
       modify (set_tokenExpiryTime None) ;;;
       throw (new_Error (token_error_prefix ++ message error))).

(** [getAccessToken(forceRefresh = false)]. *)
Definition getAccessToken (forceRefresh : bool) : M (option string) :=
  fun w =>
    if Js.truthy_str (accessToken w) && negb forceRefresh then
      if Js.truthy_num (tokenExpiryTime w)
         && match tokenExpiryTime w with
            | Some e => Z.of_N (now w) <? e
            | None => false
            end
      then (Returned (accessToken w), w)
      else fetchToken (set_accessToken None w)
    else fetchToken w.

(** ** Requests with one retry on an authentication rejection *)

Definition MAX_RETRIES : nat := 1.

(** [errorCode === 1010 || errorCode === 1011]. *)
Definition auth_rejected (errorCode : option Z) : bool :=
  match errorCode with
  | Some c => (c =? 1010) || (c =? 1011)
  | None => false
  end.

(** [accessToken = null; tokenExpiryTime = null]. *)
Definition clear_token : M unit :=
  modify (set_accessToken None) ;;; modify (set_tokenExpiryTime None).

(** [makeTuyaRequest(path, method = 'GET', query = {}, body = {},
    retryCount = 0)].

    The [try] block either returns the response or returns the promise
    of the recursive call without awaiting it; a rejection of that
    promise is therefore not seen by the [catch] of this frame.  The
    block is modelled as yielding the computation to continue with. *)
Equations makeTuyaRequest (path method : string) (query : Query) (body : Body)
    (retryCount : nat) (w : World) : Completion Response * World
    by wf (MAX_RETRIES - retryCount)%nat lt :=
makeTuyaRequest path method query body retryCount w :=
  (k <- try_catch
    (token <- getAccessToken false ;;
     ts <- gets (signRequest path method query body token) ;;
     let '(t, sign) := ts in
     let config (with_body : option Body) :=
       {| req_url := API_BASE_URL ++ path;
          req_method := method;
          req_client_id := ACCESS_ID;
          req_access_token := token;
          req_sign := sign;
          req_t := t;
          req_params := if (method =? "GET")%string then query else [];
          req_body := with_body;
          req_timeout := 15000 |} in
     response <-
       (if (method =? "GET")%string then axios (config None)
        else if (method =? "POST")%string then axios (config (Some body))
        else if (method =? "PUT")%string then axios (config (Some body))
        else throw (new_Error ("Unsupported method: " ++ method))) ;;
     match data response with
     | Some d =>
         if negb (success d) then
           let errorCode := code d in
           match sumbool_of_bool
                   (auth_rejected errorCode
                    && (retryCount <? MAX_RETRIES)%nat) with
           | left _ =>
               clear_token ;;;
               ret (fun w' =>
                      makeTuyaRequest path method query body
                        (retryCount + 1) w')
           | right _ =>
               if match errorCode with Some c => c =? 429 | None => false end
               then throw (new_Error "Rate limit exceeded")
               else ret (ret response)
           end
         else ret (ret response)
     | None => ret (ret response)
     end)
    (fun error =>
       match response error with
       | Some r =>
           match data r with
           | Some d =>
               let errorCode := code d in
               match sumbool_of_bool
                       (auth_rejected errorCode
                        && (retryCount <? MAX_RETRIES)%nat) with
               | left _ =>
                   clear_token ;;;
                   ret (fun w' =>
                      makeTuyaRequest path method query body
                        (retryCount + 1) w')
               | right _ => throw error
               end
           | None => throw error
           end
       | None => throw error
       end) ;;
   k) w.
Next Obligation.
  apply Bool.andb_true_iff in e. destruct e as [_ e].
  apply Nat.ltb_lt in e. unfold MAX_RETRIES in e.
  destruct retryCount; simpl; lia.
Qed.
Next Obligation.
  apply Bool.andb_true_iff in e. destruct e as [_ e].
  apply Nat.ltb_lt in e. unfold MAX_RETRIES in e.
  destruct retryCount; simpl; lia.
Qed.

(** ** Device prober *)

(** [getDeviceInfo(deviceId)]: the [result] of the metadata envelope, or
    [null] when the call failed. *)
Definition getDeviceInfo (deviceId : string) : M (option Result) :=
  try_catch
    (let path := "/v1.0/devices/" ++ deviceId in
     response <- makeTuyaRequest path "GET" [] empty_object 0 ;;
     match data response with
     | Some d => if success d then ret (Some (result d)) else ret None
     | None => ret None
     end)
    (fun error => ret None).

(** A JavaScript object used as a map from telemetry codes to values. *)
Definition StatusMap := string -> option Z.

Definition empty_map : StatusMap := fun _ => None.

(** [acc[code] = value]. *)
Definition assign (acc : StatusMap) (code : string) (value : Z) : StatusMap :=
  fun k => if (k =? code)%string then Some value else acc k.

(** [Array.isArray(result) ? result.reduce(..., {}) : {}] after
    [result = response.data.result || []]. *)
Definition statusMap_of (r : Result) : StatusMap :=
  match r with
  | StatusResult items =>
      fold_left (fun acc cv => assign acc (fst cv) (snd cv)) items empty_map
  | _ => empty_map
  end.

(** [v !== null && v !== undefined ? v / 10 : null]. *)
Definition tenth (v : option Z) : option Q :=
  match v with
  | Some x => Some (inject_Z x / 10)%Q
  | None => None
  end.

(** [checkDeviceAvailability(deviceId, deviceName = null)]. *)
Definition checkDeviceAvailability (deviceId : string)
    (deviceName : option string) : M Observation :=
  startTime <- Date_now ;;
  try_catch
    (deviceInfo <- getDeviceInfo deviceId ;;
     let path := "/v1.0/devices/" ++ deviceId ++ "/status" in
     response <- makeTuyaRequest path "GET" [] empty_object 0 ;;
     n <- Date_now ;;
     let responseTime := n - startTime in
     let api_error (m : option string) :=
       {| isOnline := false;
          responseTimeMs := None;
          powerConsumptionW := None;
          voltageV := None;
          error := Some (Js.or_lit m "Unknown API error");
          deviceId := deviceId;
          deviceName := deviceName |} in
     match data response with
     | Some d =>
         if success d then
           let statusMap := statusMap_of (result d) in
           let powerValue :=
             Js.or_num (statusMap "cur_power")
               (Js.or_num (statusMap "cur_power_1")
                  (Js.or_num (statusMap "power") None)) in
           let powerConsumptionW := tenth powerValue in
           let voltageValue := Js.or_num (statusMap "cur_voltage") None in
           let voltageV := tenth voltageValue in
           let deviceOnlineStatus := get_online deviceInfo in
           let isActuallyOnline :=
             match deviceInfo with
             | Some _ =>
                 match deviceOnlineStatus with
                 | Some false => false
                 | Some true => true
                 | None => true
                 end
             | None => true
             end in
           ret {| isOnline := isActuallyOnline;
                  responseTimeMs := Some responseTime;
                  powerConsumptionW := powerConsumptionW;
                  voltageV := voltageV;
                  error := None;
                  deviceId := deviceId;
                  deviceName := deviceName |}
         else ret (api_error (msg d))
     | None => ret (api_error None)
     end)
    (fun error =>
       let errorMessage :=
         match err_code error with
         | Some c =>
             if (c =? "ECONNABORTED")%string then "Timeout"
             else if (c =? "ENOTFOUND")%string || (c =? "ECONNREFUSED")%string
             then "Connection error"
             else message error
         | None => message error
         end in
       ret {| isOnline := false;
              responseTimeMs := None;
              powerConsumptionW := None;
              voltageV := None;
              error := Some errorMessage;
              deviceId := deviceId;
              deviceName := deviceName |}).

(** A configured device. *)
Record Device := { id : string; name : string }.

(** [getDevices()]: the entries of [DEVICE_IDS] are [name, id]. *)
Definition getDevices : list Device :=
  map (fun e => {| id := snd e; name := fst e |}) DEVICE_IDS.

(** ** Persistence sink *)

(** [db.savePowerStatus(...)]: the driver either rejects, and the error
    is rethrown, or stores the row and returns its insert id. *)
Definition savePowerStatus (deviceId : string) (deviceName : option string)
    (isOnline : bool) (responseTimeMs : option Z)
    (powerConsumptionW : option Q) (errorMessage : option string) : M Z :=
  fun w =>
    match database w (db_calls w) with
    | inl m => (Thrown (new_Error m), db_step [] w)
    | inr insertId =>
        (Returned insertId,
         db_step [{| row_device_id := deviceId;
                     row_device_name := deviceName;
                     row_is_online := isOnline;
                     row_response_time_ms := responseTimeMs;
                     row_power_consumption_w := powerConsumptionW;
                     row_error_message := errorMessage |}] w)
    end.

(** ** Poll cycle: [POST /monitor] *)

(** One entry of the [results] array of the reply. *)
Record Verdict := {
  v_deviceId : string;
  v_deviceName : option string;
  v_isOnline : bool;
  v_responseTimeMs : option Z;
  v_powerConsumptionW : option Q }.

Definition verdict_of (r : Observation) : Verdict :=
  {| v_deviceId := deviceId r;
     v_deviceName := deviceName r;
     v_isOnline := isOnline r;
     v_responseTimeMs := responseTimeMs r;
     v_powerConsumptionW := powerConsumptionW r |}.

(** The JSON body of the reply: the summary, or the 500 error. *)
Inductive Reply :=
| Summary (timestamp : Z) (devicesChecked online offline : nat)
          (results : list Verdict)
| ServerError (error : string) (timestamp : Z).

(** The callback of [devices.map(async (device) => ...)]. *)
Definition check_device (device : Device) : M Observation :=
  try_catch
    (result <- checkDeviceAvailability (id device) (Some (name device)) ;;
     try_catch
       (let powerConsumptionToSave :=
          if isOnline result then powerConsumptionW result else None in
        savePowerStatus (deviceId result) (deviceName result)
          (isOnline result) (responseTimeMs result)
          powerConsumptionToSave (error result) ;;;
        ret tt)
       (fun dbError => ret tt) ;;;
     ret result)
    (fun error =>
       try_catch
         (savePowerStatus (id device) (Some (name device)) false None None
            (Some (message error)) ;;;
          ret tt)
         (fun dbError => ret tt) ;;;
       ret {| isOnline := false;
              responseTimeMs := None;
              powerConsumptionW := None;
              voltageV := None;
              error := Some (message error);
              deviceId := id device;
              deviceName := Some (name device) |}).

(** [Promise.all(devices.map(f))]; the device tasks are run one after
    the other, in the order of the list. *)
Fixpoint all {A B} (f : A -> M B) (l : list A) : M (list B) :=
  match l with
  | [] => ret []
  | a :: r => b <- f a ;; bs <- all f r ;; ret (b :: bs)
  end.

(** The handler of [POST /monitor]. *)
Definition post_monitor : M Reply :=
  try_catch
    (let devices := getDevices in
     results <- all check_device devices ;;
     let onlineCount := List.length (filter isOnline results) in
     let offlineCount := (List.length results - onlineCount)%nat in
     timestamp <- Date_now ;;
     ret (Summary timestamp (List.length results) onlineCount offlineCount
            (map verdict_of results)))
    (fun error =>
       timestamp <- Date_now ;;
       ret (ServerError (message error) timestamp)).

(** ** The rest of [tuya.js] and of the monitor routes *)

(** [resetToken()]. *)
Definition resetToken : M unit :=
  modify (set_accessToken None) ;;; modify (set_tokenExpiryTime None).

(** The JSON body of the reply of [GET /monitor]. *)
Inductive ManualReply :=
| ManualResults (timestamp : Z) (results : list Observation)
| ManualError (error : string).

(** The handler of [GET /monitor]: the probes only, no persistence. *)
Definition get_monitor : M ManualReply :=
  try_catch
    (let devices := getDevices in
     results <- all (fun device =>
                       checkDeviceAvailability (id device) (Some (name device)))
                  devices ;;
     timestamp <- Date_now ;;
     ret (ManualResults timestamp results))
    (fun error => ret (ManualError (message error))).

(** ** The first version of the prober ([src/tuya.js]) *)

(** The messages of the TypeErrors raised by [result.reduce] when [result]
    is absent and when it is an object that is not an array. *)
Definition TypeError_reduce_undefined : string :=
  "Cannot read properties of undefined (reading 'reduce')".

Definition TypeError_reduce_not_function : string :=
  "response.data.result.reduce is not a function".

(** [getAccessToken()] of the first version: no expiry, and the cache is
    left as it is when the fetch fails. *)
Definition legacy_getAccessToken : M (option string) :=
  fun w =>
    if Js.truthy_str (accessToken w) then (Returned (accessToken w), w)
    else
      try_catch
        (let method := "GET" in
         let path := "/v1.0/token" in
         let query := [("grant_type", "1")] in
         ts <- gets (signRequest path method query empty_object None) ;;
         let '(t, sign) := ts in
         response <- axios {| req_url := API_BASE_URL ++ path;
                              req_method := method;
                              req_client_id := ACCESS_ID;
                              req_access_token := None;
                              req_sign := sign;
                              req_t := t;
                              req_params := query;
                              req_body := None;
                              req_timeout := 10000 |} ;;
         match data response with
         | Some d =>
             if success d then
               match get_access_token (result d) with
               | None => throw (new_Error TypeError_access_token)
               | Some tok => modify (set_accessToken tok) ;;; gets accessToken
               end
             else throw (new_Error (Js.or_lit (msg d) "Unknown error"))
         | None => throw (new_Error "Unknown error")
         end)
        (fun error =>
           throw (new_Error (token_error_prefix ++ message error)))
        w.

(** [checkDeviceAvailability(deviceId, deviceName = null)] of the first
    version: one status request, no metadata, no retry. *)
Definition legacy_checkDeviceAvailability (deviceId : string)
    (deviceName : option string) : M Observation :=
  startTime <- Date_now ;;
  try_catch
    (token <- legacy_getAccessToken ;;
     let path := "/v1.0/devices/" ++ deviceId ++ "/status" in
     ts <- gets (signRequest path "GET" [] empty_object token) ;;
     let '(t, sign) := ts in
     response <- axios {| req_url := API_BASE_URL ++ path;
                          req_method := "GET";
                          req_client_id := ACCESS_ID;
                          req_access_token := token;
                          req_sign := sign;
                          req_t := t;
                          req_params := [];
                          req_body := None;
                          req_timeout := 15000 |} ;;
     n <- Date_now ;;
     let responseTime := n - startTime in
     let api_error (m : option string) :=
       {| isOnline := false;
          responseTimeMs := None;
          powerConsumptionW := None;
          voltageV := None;
          error := Some (Js.or_lit m "Unknown API error");
          deviceId := deviceId;
          deviceName := deviceName |} in
     match data response with
     | Some d =>
         if success d then
           match result d with
           | StatusResult items =>
               let statusMap :=
                 fold_left (fun acc cv => assign acc (fst cv) (snd cv))
                   items empty_map in
               let powerValue := Js.or_num (statusMap "cur_power") None in
               let powerConsumptionW := tenth powerValue in
               ret {| isOnline := true;
                      responseTimeMs := Some responseTime;
                      powerConsumptionW := powerConsumptionW;
                      voltageV := None;
                      error := None;
                      deviceId := deviceId;
                      deviceName := deviceName |}
           | NoResult => throw (new_Error TypeError_reduce_undefined)
           | _ => throw (new_Error TypeError_reduce_not_function)
           end
         else ret (api_error (msg d))
     | None => ret (api_error None)
     end)
    (fun error =>
       let errorMessage :=
         match err_code error with
         | Some c =>
             if (c =? "ECONNABORTED")%string then "Timeout"
             else if (c =? "ENOTFOUND")%string || (c =? "ECONNREFUSED")%string
             then "Connection error"
             else message error
         | None => message error
         end in
       ret {| isOnline := false;
              responseTimeMs := None;
              powerConsumptionW := None;
              voltageV := None;
              error := Some errorMessage;
              deviceId := deviceId;
              deviceName := deviceName |}).

(** ** Vocabulary of the statements *)

(** The order [sort()] leaves the entries in. *)
Definition entry_ordered (a b : string * string) : Prop :=
  Js.entry_le a b = true.



(** The request [getAccessToken] sends from world [w]. *)
Definition token_request (w : World) : Request :=
  let ts := signRequest "/v1.0/token" "GET" [("grant_type", "1")]
              empty_object None w in
  {| req_url := API_BASE_URL ++ "/v1.0/token";
     req_method := "GET";
     req_client_id := ACCESS_ID;
     req_access_token := None;
     req_sign := snd ts;
     req_t := fst ts;
     req_params := [("grant_type", "1")];
     req_body := None;
     req_timeout := 10000 |}.

(** The Empty state of the cache. *)
Definition cleared (w : World) : World :=
  set_tokenExpiryTime None (set_accessToken None w).

(** Time passing between two calls. *)
Definition advance (dt : N) (w : World) : World :=
  {| accessToken := accessToken w; tokenExpiryTime := tokenExpiryTime w;
     now := (now w + dt)%N; network := network w; sent := sent w;
     database := database w; db_calls := db_calls w;
     power_status := power_status w |}.

(** [(expire_time || 7200) * 1000]. *)
Definition lifetime_ms (r : Result) : Z :=
  match Js.or_num (get_expire_time r) (Some 7200) with
  | Some e => e * 1000
  | None => 7200 * 1000
  end.

(** The cache answers without a fetch. *)
Definition cache_hit (forceRefresh : bool) (w : World) : bool :=
  Js.truthy_str (accessToken w) && negb forceRefresh
  && (Js.truthy_num (tokenExpiryTime w)
      && match tokenExpiryTime w with
         | Some e => Z.of_N (now w) <? e
         | None => false
         end).

(** The world in which a fetch starts. *)
Definition before_fetch (forceRefresh : bool) (w : World) : World :=
  if Js.truthy_str (accessToken w) && negb forceRefresh
  then set_accessToken None w else w.

(** The request [makeTuyaRequest] sends from world [w] with [token]. *)
Definition data_request (path method : string) (query : Query) (body : Body)
    (token : option string) (w : World) : Request :=
  let ts := signRequest path method query body token w in
  {| req_url := API_BASE_URL ++ path;
     req_method := method;
     req_client_id := ACCESS_ID;
     req_access_token := token;
     req_sign := snd ts;
     req_t := fst ts;
     req_params := if (method =? "GET")%string then query else [];
     req_body := if (method =? "GET")%string then None else Some body;
     req_timeout := 15000 |}.

(** The methods [makeTuyaRequest] supports. *)
Definition supported (method : string) : bool :=
  (method =? "GET")%string || (method =? "POST")%string
  || (method =? "PUT")%string.

(** The provider's answer carries an authentication rejection: an error
    envelope with code 1010 or 1011, in a resolved response or in the
    response attached to a rejection. *)
Definition auth_rejection (a : Answer) : bool :=
  match reply a with
  | inr resp =>
      match data resp with
      | Some d => negb (success d) && auth_rejected (code d)
      | None => false
      end
  | inl e =>
      match response e with
      | Some r =>
          match data r with
          | Some d => auth_rejected (code d)
          | None => false
          end
      | None => false
      end
  end.

(** The response is an error envelope with the rate-limit code 429. *)
Definition rate_limited (resp : Response) : bool :=
  match data resp with
  | Some d =>
      negb (success d)
      && match code d with Some c => c =? 429 | None => false end
  | None => false
  end.

(** How an answer that is not retried completes the call. *)
Definition surfaced (a : Answer) : Completion Response :=
  match reply a with
  | inl e => Thrown e
  | inr resp =>
      if rate_limited resp then Thrown (new_Error "Rate limit exceeded")
      else Returned resp
  end.

(** The paths of the two calls of a probe. *)
Definition info_path (deviceId : string) : string :=
  "/v1.0/devices/" ++ deviceId.

Definition status_path (deviceId : string) : string :=
  "/v1.0/devices/" ++ deviceId ++ "/status".

(** The status call completed with a success envelope. *)
Definition status_ok (c : Completion Response) : bool :=
  match c with
  | Returned resp =>
      match data resp with
      | Some d => success d
      | None => false
      end
  | Thrown _ => false
  end.

(** The value of the last telemetry pair that carries [code]. *)
Fixpoint last_value (code : string) (items : list (string * Z)) : option Z :=
  match items with
  | [] => None
  | cv :: rest =>
      match last_value code rest with
      | Some v => Some v
      | None => if (code =? fst cv)%string then Some (snd cv) else None
      end
  end.

(** The world with another database: its replies, its call counter and its
    table. *)
Definition with_db (db : nat -> string + Z) (calls : nat) (rows : list Row)
    (w : World) : World :=
  {| accessToken := accessToken w; tokenExpiryTime := tokenExpiryTime w;
     now := now w; network := network w; sent := sent w;
     database := db; db_calls := calls; power_status := rows |}.

(** A computation that neither reads nor writes the database. *)
Definition db_blind {A} (c : M A) : Prop :=
  forall db calls rows w,
    c (with_db db calls rows w)
    = (fst (c w), with_db db calls rows (snd (c w))).

(** The row the poll cycle stores for an Observation. *)
Definition persisted_row (r : Observation) : Row :=
  {| row_device_id := deviceId r;
     row_device_name := deviceName r;
     row_is_online := isOnline r;
     row_response_time_ms := responseTimeMs r;
     row_power_consumption_w :=
       if isOnline r then powerConsumptionW r else None;
     row_error_message := error r |}.

(** The probe of a configured device, without the persistence write. *)
Definition probe (device : Device) : M Observation :=
  checkDeviceAvailability (id device) (Some (name device)).

(** The rows one persistence write adds to the table. *)
Definition saved_rows (r : Observation) (w : World) : list Row :=
  match database w (db_calls w) with
  | inl _ => []
  | inr _ => [persisted_row r]
  end.

(** A stored row respects the invariant of the table: no power reading for
    an offline device. *)
Definition row_ok (row : Row) : Prop :=
  row_is_online row = false -> row_power_consumption_w row = None.

(** The world at start-up: empty cache, empty log, empty table. *)
Definition start (net : nat -> Answer) (db : nat -> string + Z) : World :=
  {| accessToken := None; tokenExpiryTime := None; now := 1700000000000;
     network := net; sent := []; database := db; db_calls := 0;
     power_status := [] |}.

(** * Properties *)

(** ** Signer *)

Lemma insert_entry_perm (e : string * string) (l : list (string * string)) :
  Permutation (e :: l) (Js.insert_entry e l).
Proof.
  induction l as [|x r IH]; simpl.
  - apply Permutation_refl.
  - destruct (Js.entry_le e x).
    + apply Permutation_refl.
    + apply perm_trans with (x :: e :: r).
      * apply perm_swap.
      * apply perm_skip, IH.
Qed.

Lemma sort_entries_perm (l : list (string * string)) :
  Permutation l (Js.sort_entries l).
Proof.
  induction l as [|e r IH]; simpl.
  - apply perm_nil.
  - apply perm_trans with (e :: Js.sort_entries r).
    + apply perm_skip, IH.
    + apply insert_entry_perm.
Qed.

Lemma entry_le_total (a b : string * string) :
  Js.entry_le a b = false -> Js.entry_le b a = true.
Proof.
  unfold Js.entry_le. intros H.
  destruct (String.leb_total (Js.entry_key a) (Js.entry_key b)) as [T|T].
  - congruence.
  - exact T.
Qed.

Lemma insert_entry_sorted (e : string * string) (l : list (string * string)) :
  Sorted entry_ordered l -> Sorted entry_ordered (Js.insert_entry e l).
Proof.
  induction 1 as [|x r Hs IH Hd]; simpl.
  - repeat constructor.
  - destruct (Js.entry_le e x) eqn:E.
    + constructor; [constructor; assumption | constructor; exact E].
    + constructor; [exact IH |].
      destruct Hd as [|y r' Hxy]; simpl.
      * constructor. apply entry_le_total, E.
      * destruct (Js.entry_le e y); constructor;
          [apply entry_le_total, E | exact Hxy].
Qed.

Lemma sort_entries_sorted (l : list (string * string)) :
  Sorted entry_ordered (Js.sort_entries l).
Proof.
  induction l as [|e r IH]; simpl.
  - constructor.
  - apply insert_entry_sorted, IH.
Qed.



(** ** Token cache *)

Lemma fetchToken_eq (w : World) :
  fetchToken w =
  let w' := exchange (token_request w) w in
  match reply (network w (List.length (sent w))) with
  | inl e =>
      (Thrown (new_Error (token_error_prefix ++ message e)), cleared w')
  | inr resp =>
      match data resp with
      | Some d =>
          if success d then
            match get_access_token (result d) with
            | None =>
                (Thrown (new_Error (token_error_prefix ++ TypeError_access_token)),
                 cleared w')
            | Some tok =>
                (Returned tok,
                 set_tokenExpiryTime
                   (Some (Z.of_N (now w') + lifetime_ms (result d)
                          - 5 * 60 * 1000))
                   (set_accessToken tok w'))
            end
          else
            (Thrown (new_Error (token_error_prefix
                                ++ Js.or_lit (msg d) "Unknown error")),
             cleared w')
      | None =>
          (Thrown (new_Error (token_error_prefix ++ "Unknown error")),
           cleared w')
      end
  end.
Proof.
  unfold fetchToken, token_request, try_catch, bind, gets, axios.
  destruct (signRequest _ _ _ _ _ w) as [t sign]. cbn [fst snd].
  destruct (reply _) as [e|resp]; [reflexivity |].
  destruct (data resp) as [d|]; [| reflexivity].
  destruct (success d); [| reflexivity].
  destruct (get_access_token (result d)); reflexivity.
Qed.

Lemma getAccessToken_eq (forceRefresh : bool) (w : World) :
  getAccessToken forceRefresh w =
  if cache_hit forceRefresh w then (Returned (accessToken w), w)
  else fetchToken (before_fetch forceRefresh w).
Proof.
  unfold getAccessToken, cache_hit, before_fetch.
  destruct (Js.truthy_str (accessToken w) && negb forceRefresh); simpl;
    [| reflexivity].
  destruct (Js.truthy_num (tokenExpiryTime w) && _); reflexivity.
Qed.

Lemma fetchToken_sent (w : World) :
  sent (snd (fetchToken w)) = token_request w :: sent w.
Proof.
  rewrite fetchToken_eq. cbv zeta.
  destruct (reply _) as [e|resp]; [reflexivity |].
  destruct (data resp) as [d|]; [| reflexivity].
  destruct (success d); [| reflexivity].
  destruct (get_access_token (result d)); reflexivity.
Qed.

(** An error of [getAccessToken] carries no HTTP response. *)
Lemma getAccessToken_thrown (forceRefresh : bool) (w w' : World) (e : Error) :
  getAccessToken forceRefresh w = (Thrown e, w') ->
  response e = None /\ accessToken w' = None /\ tokenExpiryTime w' = None.
Proof.
  rewrite getAccessToken_eq.
  destruct (cache_hit forceRefresh w); [discriminate |].
  rewrite fetchToken_eq. cbv zeta.
  destruct (reply _) as [e0|resp].
  - intros H; inversion H; subst; auto.
  - destruct (data resp) as [d|].
    + destruct (success d).
      * destruct (get_access_token (result d)).
        -- discriminate.
        -- intros H; inversion H; subst; auto.
      * intros H; inversion H; subst; auto.
    + intros H; inversion H; subst; auto.
Qed.

(** C3 (amended): after a successful fetch that stores a non-empty token
    with a non-zero provider-reported lifetime of [L] seconds,
    [getAccessToken] returns the cached token, sending nothing, at every
    time strictly less than [(L - 300)] seconds after the fetch, and sends
    a new token request at every time at or past it. *)
Theorem token_cache_window (w : World) (resp : Response) (d : Envelope)
    (tok : string) (L : Z) :
  cache_hit false w = false ->
  reply (network w (List.length (sent w))) = inr resp ->
  data resp = Some d ->
  success d = true ->
  result d = TokenResult (Some tok) (Some L) ->
  tok <> "" ->
  L <> 0 ->
  let w1 := snd (getAccessToken false w) in
  fst (getAccessToken false w) = Returned (Some tok)
  /\ sent w1 = token_request (before_fetch false w) :: sent w
  /\ forall dt : N,
       (Z.of_N dt < (L - 300) * 1000 ->
        getAccessToken false (advance dt w1)
        = (Returned (Some tok), advance dt w1))
       /\ ((L - 300) * 1000 <= Z.of_N dt ->
           sent (snd (getAccessToken false (advance dt w1)))
           = token_request (set_accessToken None (advance dt w1)) :: sent w1).
Proof.
  intros Hmiss Hreply Hdata Hsucc Hres Htok HL.
  set (w0 := before_fetch false w).
  assert (B : network w0 = network w /\ sent w0 = sent w).
  { unfold w0, before_fetch.
    destruct (Js.truthy_str (accessToken w) && negb false); split; reflexivity. }
  destruct B as [Bn Bs].
  assert (E : getAccessToken false w =
              (Returned (Some tok),
               set_tokenExpiryTime
                 (Some (Z.of_N (now (exchange (token_request w0) w0))
                        + L * 1000 - 5 * 60 * 1000))
                 (set_accessToken (Some tok) (exchange (token_request w0) w0)))).
  { rewrite getAccessToken_eq, Hmiss. fold w0.
    rewrite fetchToken_eq. cbv zeta.
    rewrite Bn, Bs, Hreply, Hdata, Hsucc, Hres. simpl.
    unfold lifetime_ms, Js.or_num. simpl.
    destruct (L =? 0) eqn:Z0; [apply Z.eqb_eq in Z0; contradiction |].
    reflexivity. }
  cbv zeta. rewrite E. cbn [fst snd].
  split; [reflexivity |].
  split; [simpl; rewrite Bs; reflexivity |].
  intros dt.
  set (w1 := set_tokenExpiryTime _ _).
  assert (Tk : Js.truthy_str (accessToken (advance dt w1)) = true).
  { simpl. destruct (tok =? "")%string eqn:T; [| reflexivity].
    apply String.eqb_eq in T. contradiction. }
  split.
  - intros Hlt. rewrite getAccessToken_eq.
    assert (H : cache_hit false (advance dt w1) = true).
    { unfold cache_hit. rewrite Tk. simpl.
      apply andb_true_intro. split.
      - apply negb_true_iff, Z.eqb_neq. lia.
      - apply Z.ltb_lt. lia. }
    rewrite H. reflexivity.
  - intros Hge. rewrite getAccessToken_eq.
    assert (H : cache_hit false (advance dt w1) = false).
    { unfold cache_hit. rewrite Tk. simpl.
      apply andb_false_iff. right. apply Z.ltb_ge. lia. }
    rewrite H. unfold before_fetch. rewrite Tk. simpl andb. cbv iota.
    rewrite fetchToken_sent. reflexivity.
Qed.

(** ** Requests with one retry *)

Lemma auth_rejected_not_429 (c : option Z) :
  auth_rejected c = true ->
  match c with Some z => z =? 429 | None => false end = false.
Proof.
  destruct c as [z|]; simpl; [| reflexivity].
  intros H. apply orb_true_iff in H.
  apply Z.eqb_neq. destruct H as [H|H]; apply Z.eqb_eq in H; lia.
Qed.

(** One frame of [makeTuyaRequest]: the token, one request, and then either
    the retry or the answer. *)
Lemma makeTuyaRequest_frame (path method : string) (query : Query)
    (body : Body) (retryCount : nat) (w : World) :
  supported method = true ->
  makeTuyaRequest path method query body retryCount w =
  match getAccessToken false w with
  | (Thrown e, w1) => (Thrown e, w1)
  | (Returned token, w1) =>
      let a := network w1 (List.length (sent w1)) in
      let w2 := exchange (data_request path method query body token w1) w1 in
      if auth_rejection a && (retryCount <? MAX_RETRIES)%nat
      then makeTuyaRequest path method query body (retryCount + 1) (cleared w2)
      else (surfaced a, w2)
  end.
Proof.
  intros Hm. rewrite makeTuyaRequest_equation_1.
  unfold bind at 1. unfold try_catch. unfold bind at 1.
  destruct (getAccessToken false w) as [[token|e] w1] eqn:G.
  - unfold bind at 1. unfold gets at 1. unfold data_request.
    destruct (signRequest path method query body token w1) as [t sign].
    cbn [fst snd]. cbv zeta.
    assert (A : (if (method =? "GET")%string
                 then axios {| req_url := API_BASE_URL ++ path;
                               req_method := method;
                               req_client_id := ACCESS_ID;
                               req_access_token := token;
                               req_sign := sign; req_t := t;
                               req_params := if (method =? "GET")%string
                                             then query else [];
                               req_body := None; req_timeout := 15000 |}
                 else if (method =? "POST")%string
                 then axios {| req_url := API_BASE_URL ++ path;
                               req_method := method;
                               req_client_id := ACCESS_ID;
                               req_access_token := token;
                               req_sign := sign; req_t := t;
                               req_params := if (method =? "GET")%string
                                             then query else [];
                               req_body := Some body; req_timeout := 15000 |}
                 else if (method =? "PUT")%string
                 then axios {| req_url := API_BASE_URL ++ path;
                               req_method := method;
                               req_client_id := ACCESS_ID;
                               req_access_token := token;
                               req_sign := sign; req_t := t;
                               req_params := if (method =? "GET")%string
                                             then query else [];
                               req_body := Some body; req_timeout := 15000 |}
                 else throw (new_Error ("Unsupported method: " ++ method)))
                = axios {| req_url := API_BASE_URL ++ path;
                           req_method := method;
                           req_client_id := ACCESS_ID;
                           req_access_token := token;
                           req_sign := sign; req_t := t;
                           req_params := if (method =? "GET")%string
                                         then query else [];
                           req_body := if (method =? "GET")%string
                                       then None else Some body;
                           req_timeout := 15000 |}).
    { unfold supported in Hm.
      destruct (method =? "GET")%string; [reflexivity |].
      destruct (method =? "POST")%string; [reflexivity |].
      destruct (method =? "PUT")%string; [reflexivity | discriminate]. }
    rewrite A. clear A.
    unfold bind, axios, auth_rejection, surfaced, rate_limited.
    destruct (reply (network w1 (List.length (sent w1)))) as [e|resp].
    + destruct (response e) as [r|]; [| reflexivity].
      destruct (data r) as [d|]; [| reflexivity].
      cbv zeta.
      destruct (auth_rejected (code d) && (retryCount <? MAX_RETRIES)%nat);
        reflexivity.
    + destruct (data resp) as [d|]; [| reflexivity].
      destruct (success d); [reflexivity |].
      cbv zeta. simpl negb. rewrite !andb_true_l.
      destruct (auth_rejected (code d)) eqn:AR.
      * destruct (retryCount <? MAX_RETRIES)%nat; simpl; [reflexivity |].
        rewrite (auth_rejected_not_429 _ AR). reflexivity.
      * simpl.
        destruct (match code d with Some c => c =? 429 | None => false end);
          reflexivity.
  - destruct (getAccessToken_thrown _ _ _ _ G) as [R _].
    rewrite R. reflexivity.
Qed.

(** C2: when the first response of a request carries the rejection code
    1010 or 1011, the call continues as its one retry in the world where
    the cached token is cleared: a new token is fetched from the provider
    and the request is sent once more with that token; the answer to the
    second request completes the call whatever it is, so a second
    rejection is returned (or rethrown) and no third request is sent. When
    the new token cannot be fetched, that error completes the call. *)
Theorem auth_rejection_retried_once (path method : string) (query : Query)
    (body : Body) (w w1 : World) (token : option string) :
  supported method = true ->
  getAccessToken false w = (Returned token, w1) ->
  auth_rejection (network w1 (List.length (sent w1))) = true ->
  let req1 := data_request path method query body token w1 in
  let w2 := cleared (exchange req1 w1) in
  makeTuyaRequest path method query body 0 w
  = makeTuyaRequest path method query body 1 w2
  /\ accessToken w2 = None
  /\ tokenExpiryTime w2 = None
  /\ sent (snd (getAccessToken false w2)) = token_request w2 :: req1 :: sent w1
  /\ (forall e w3,
        getAccessToken false w2 = (Thrown e, w3) ->
        makeTuyaRequest path method query body 0 w = (Thrown e, w3))
  /\ (forall token' w3,
        getAccessToken false w2 = (Returned token', w3) ->
        let req2 := data_request path method query body token' w3 in
        let a2 := network w3 (List.length (sent w3)) in
        makeTuyaRequest path method query body 0 w
        = (surfaced a2, exchange req2 w3)
        /\ sent (exchange req2 w3)
           = req2 :: token_request w2 :: req1 :: sent w1
        /\ req_access_token req2 = token'
        /\ (auth_rejection a2 = true ->
            surfaced a2 = match reply a2 with
                          | inl e => Thrown e
                          | inr resp => Returned resp
                          end)).
Proof.
  intros Hm G A. cbv zeta.
  set (req1 := data_request path method query body token w1).
  set (w2 := cleared (exchange req1 w1)).
  assert (F : makeTuyaRequest path method query body 0 w
              = makeTuyaRequest path method query body 1 w2).
  { rewrite (makeTuyaRequest_frame path method query body 0 w Hm), G.
    cbv zeta. rewrite A. reflexivity. }
  assert (S2 : sent (snd (getAccessToken false w2))
               = token_request w2 :: req1 :: sent w1).
  { rewrite getAccessToken_eq. unfold cache_hit, before_fetch.
    simpl. rewrite fetchToken_sent. reflexivity. }
  split; [exact F |].
  split; [reflexivity |]. split; [reflexivity |]. split; [exact S2 |].
  split.
  - intros e w3 G2. rewrite F.
    rewrite (makeTuyaRequest_frame path method query body 1 w2 Hm), G2.
    reflexivity.
  - intros token' w3 G2. rewrite G2 in S2. cbn [snd] in S2.
    split; [| split; [| split]].
    + rewrite F.
      rewrite (makeTuyaRequest_frame path method query body 1 w2 Hm), G2.
      cbv zeta. rewrite andb_false_r. reflexivity.
    + simpl. rewrite S2. reflexivity.
    + reflexivity.
    + unfold auth_rejection, surfaced, rate_limited.
      destruct (reply _) as [e|resp]; [reflexivity |].
      destruct (data resp) as [d|]; [| discriminate].
      intros H. apply andb_true_iff in H. destruct H as [H1 H2].
      rewrite H1, (auth_rejected_not_429 _ H2). reflexivity.
Qed.

(** ** Device prober *)

Lemma getDeviceInfo_eq (deviceId : string) (w : World) :
  getDeviceInfo deviceId w =
  let r := makeTuyaRequest (info_path deviceId) "GET" [] empty_object 0 w in
  (Returned
     match fst r with
     | Returned resp =>
         match data resp with
         | Some d => if success d then Some (result d) else None
         | None => None
         end
     | Thrown _ => None
     end,
   snd r).
Proof.
  unfold getDeviceInfo, try_catch, bind, info_path. cbv zeta.
  destruct (makeTuyaRequest _ "GET" [] empty_object 0 w) as [[resp|e] w1];
    cbn [fst snd]; [| reflexivity].
  destruct (data resp) as [d|]; [| reflexivity].
  destruct (success d); reflexivity.
Qed.

Lemma getDeviceInfo_returns (deviceId : string) (w : World) :
  exists deviceInfo w1, getDeviceInfo deviceId w = (Returned deviceInfo, w1).
Proof.
  rewrite getDeviceInfo_eq. cbv zeta. eauto.
Qed.

Lemma fold_assign_lookup (items : list (string * Z)) (acc : StatusMap)
    (c : string) :
  fold_left (fun a cv => assign a (fst cv) (snd cv)) items acc c =
  match last_value c items with
  | Some v => Some v
  | None => acc c
  end.
Proof.
  revert acc. induction items as [|cv rest IH]; intros acc; simpl.
  - reflexivity.
  - rewrite IH. destruct (last_value c rest); [reflexivity |].
    unfold assign. destruct (c =? fst cv)%string; reflexivity.
Qed.

Lemma statusMap_of_items (items : list (string * Z)) (c : string) :
  statusMap_of (StatusResult items) c = last_value c items.
Proof.
  unfold statusMap_of. rewrite fold_assign_lookup.
  destruct (last_value c items); reflexivity.
Qed.

Lemma last_value_In (c : string) (items : list (string * Z)) (v : Z) :
  last_value c items = Some v -> In (c, v) items.
Proof.
  induction items as [|[c' v'] rest IH]; simpl; [discriminate |].
  destruct (last_value c rest) as [x|].
  - intros H. right. apply IH. exact H.
  - destruct (c =? c')%string eqn:E; [| discriminate].
    apply String.eqb_eq in E. intros H. inversion H; subst. now left.
Qed.

Lemma last_value_present (c : string) (items : list (string * Z)) (v : Z) :
  In (c, v) items -> exists v', last_value c items = Some v'.
Proof.
  induction items as [|[c' v'] rest IH]; simpl; [contradiction |].
  intros [H|H].
  - inversion H; subst. destruct (last_value c rest); eauto.
    rewrite String.eqb_refl. eauto.
  - destruct (IH H) as [x Hx]. rewrite Hx. eauto.
Qed.

Lemma last_value_absent (c : string) (items : list (string * Z)) :
  (forall v, ~ In (c, v) items) -> last_value c items = None.
Proof.
  intros H. destruct (last_value c items) as [v|] eqn:E; [| reflexivity].
  exfalso. exact (H v (last_value_In _ _ _ E)).
Qed.

(** The unique value of a code that occurs with one value only. *)
Lemma last_value_unique (c : string) (items : list (string * Z)) (v : Z) :
  In (c, v) items ->
  (forall v', In (c, v') items -> v' = v) ->
  last_value c items = Some v.
Proof.
  intros Hin Hall. destruct (last_value_present _ _ _ Hin) as [x Hx].
  rewrite Hx. f_equal. apply Hall. apply last_value_In. exact Hx.
Qed.

(** The three ways a probe ends, after the metadata call returned
    [deviceInfo] in world [w1]. *)
Lemma check_thrown (deviceId : string) (deviceName : option string)
    (w w1 w2 : World) (deviceInfo : option Result) (e : Error) :
  getDeviceInfo deviceId w = (Returned deviceInfo, w1) ->
  makeTuyaRequest (status_path deviceId) "GET" [] empty_object 0 w1
  = (Thrown e, w2) ->
  exists m,
    checkDeviceAvailability deviceId deviceName w =
    (Returned {| isOnline := false; responseTimeMs := None;
                 powerConsumptionW := None; voltageV := None;
                 error := Some m; deviceId := deviceId;
                 deviceName := deviceName |}, w2).
Proof.
  intros G S. unfold checkDeviceAvailability, status_path in *.
  unfold bind at 1. unfold Date_now at 1, gets at 1.
  unfold try_catch. unfold bind at 1. rewrite G.
  cbv zeta. unfold bind at 1. rewrite S. unfold ret. eauto.
Qed.

Lemma check_error_envelope (deviceId : string) (deviceName : option string)
    (w w1 w2 : World) (deviceInfo : option Result) (resp : Response) :
  getDeviceInfo deviceId w = (Returned deviceInfo, w1) ->
  makeTuyaRequest (status_path deviceId) "GET" [] empty_object 0 w1
  = (Returned resp, w2) ->
  status_ok (Returned resp) = false ->
  exists m,
    checkDeviceAvailability deviceId deviceName w =
    (Returned {| isOnline := false; responseTimeMs := None;
                 powerConsumptionW := None; voltageV := None;
                 error := Some m; deviceId := deviceId;
                 deviceName := deviceName |}, w2).
Proof.
  intros G S K. unfold checkDeviceAvailability, status_path in *.
  unfold bind at 1. unfold Date_now at 1, gets at 1.
  unfold try_catch. unfold bind at 1. rewrite G.
  cbv zeta. unfold bind at 1. rewrite S.
  unfold bind, Date_now, gets, ret. simpl in K.
  destruct (data resp) as [d|]; [rewrite K |]; eauto.
Qed.

Lemma check_success (deviceId : string) (deviceName : option string)
    (w w1 w2 : World) (deviceInfo : option Result) (resp : Response)
    (d : Envelope) :
  getDeviceInfo deviceId w = (Returned deviceInfo, w1) ->
  makeTuyaRequest (status_path deviceId) "GET" [] empty_object 0 w1
  = (Returned resp, w2) ->
  data resp = Some d ->
  success d = true ->
  checkDeviceAvailability deviceId deviceName w =
  (Returned
     {| isOnline :=
          match deviceInfo with
          | Some _ =>
              match get_online deviceInfo with
              | Some false => false
              | Some true => true
              | None => true
              end
          | None => true
          end;
        responseTimeMs := Some (Z.of_N (now w2) - Z.of_N (now w));
        powerConsumptionW :=
          tenth (Js.or_num (statusMap_of (result d) "cur_power")
                   (Js.or_num (statusMap_of (result d) "cur_power_1")
                      (Js.or_num (statusMap_of (result d) "power") None)));
        voltageV :=
          tenth (Js.or_num (statusMap_of (result d) "cur_voltage") None);
        error := None; deviceId := deviceId; deviceName := deviceName |},
   w2).
Proof.
  intros G S D K. unfold checkDeviceAvailability, status_path in *.
  unfold bind at 1. unfold Date_now at 1, gets at 1.
  unfold try_catch. unfold bind at 1. rewrite G.
  cbv zeta. unfold bind at 1. rewrite S.
  unfold bind, Date_now, gets, ret. rewrite D, K. reflexivity.
Qed.

(** C4: whatever the provider does, [checkDeviceAvailability] returns an
    Observation and never throws; when the status call did not complete
    with a success envelope (error envelope, timeout, connection error or
    any other exception), the Observation has [isOnline = false] and an
    error string. *)
Theorem checkDeviceAvailability_never_throws (deviceId : string)
    (deviceName : option string) (w : World) :
  exists obs w',
    checkDeviceAvailability deviceId deviceName w = (Returned obs, w')
    /\ (status_ok
          (fst (makeTuyaRequest (status_path deviceId) "GET" [] empty_object 0
                  (snd (getDeviceInfo deviceId w)))) = false ->
        isOnline obs = false /\ exists m, error obs = Some m).
Proof.
  destruct (getDeviceInfo_returns deviceId w) as [info [w1 G]].
  rewrite G. cbn [snd].
  destruct (makeTuyaRequest (status_path deviceId) "GET" [] empty_object 0 w1)
    as [[resp|e] w2] eqn:S; cbn [fst].
  - destruct (status_ok (Returned resp)) eqn:K.
    + simpl in K. destruct (data resp) as [d|] eqn:D; [| discriminate].
      rewrite (check_success deviceId deviceName w w1 w2 info resp d G S D K).
      eexists. eexists. split; [reflexivity | discriminate].
    + destruct (check_error_envelope deviceId deviceName w w1 w2 info resp
                  G S K) as [m E].
      rewrite E. eexists. eexists. split; [reflexivity |].
      intros _. simpl. eauto.
  - destruct (check_thrown deviceId deviceName w w1 w2 info e G S) as [m E].
    rewrite E. eexists. eexists. split; [reflexivity |].
    intros _. simpl. eauto.
Qed.


(** C10: in a successful status response where [cur_power] occurs with the
    value 0 only and neither [cur_power_1] nor [power] occurs, the
    Observation has [powerConsumptionW = null]; and where [cur_voltage]
    occurs with the value 0 only, it has [voltageV = null]. *)
Theorem zero_reading_is_null (deviceId : string) (deviceName : option string)
    (w w1 w2 : World) (deviceInfo : option Result) (resp : Response)
    (d : Envelope) (items : list (string * Z)) :
  getDeviceInfo deviceId w = (Returned deviceInfo, w1) ->
  makeTuyaRequest (status_path deviceId) "GET" [] empty_object 0 w1
  = (Returned resp, w2) ->
  data resp = Some d ->
  success d = true ->
  result d = StatusResult items ->
  exists obs,
    checkDeviceAvailability deviceId deviceName w = (Returned obs, w2)
    /\ (In ("cur_power", 0) items ->
        (forall v, In ("cur_power", v) items -> v = 0) ->
        (forall v, ~ In ("cur_power_1", v) items) ->
        (forall v, ~ In ("power", v) items) ->
        powerConsumptionW obs = None)
    /\ (In ("cur_voltage", 0) items ->
        (forall v, In ("cur_voltage", v) items -> v = 0) ->
        voltageV obs = None).
Proof.
  intros G S D K R.
  rewrite (check_success deviceId deviceName w w1 w2 deviceInfo resp d G S D K).
  eexists. split; [reflexivity |].
  cbn [powerConsumptionW voltageV]. rewrite R, !statusMap_of_items. split.
  - intros Hin Hall H1 H2.
    rewrite (last_value_unique _ _ _ Hin Hall).
    rewrite (last_value_absent _ _ H1), (last_value_absent _ _ H2).
    reflexivity.
  - intros Hin Hall. rewrite (last_value_unique _ _ _ Hin Hall). reflexivity.
Qed.

(** C5 (amended): in a successful status response where [cur_power] occurs
    with one raw value [v] only and [v] is not zero, the Observation has
    [powerConsumptionW = v / 10]; voltage is scaled in the same way from
    [cur_voltage]. *)
Theorem telemetry_scaled_by_ten (deviceId : string)
    (deviceName : option string) (w w1 w2 : World)
    (deviceInfo : option Result) (resp : Response) (d : Envelope)
    (items : list (string * Z)) :
  getDeviceInfo deviceId w = (Returned deviceInfo, w1) ->
  makeTuyaRequest (status_path deviceId) "GET" [] empty_object 0 w1
  = (Returned resp, w2) ->
  data resp = Some d ->
  success d = true ->
  result d = StatusResult items ->
  exists obs,
    checkDeviceAvailability deviceId deviceName w = (Returned obs, w2)
    /\ (forall v,
          In ("cur_power", v) items ->
          (forall v', In ("cur_power", v') items -> v' = v) ->
          v <> 0 ->
          powerConsumptionW obs = Some (inject_Z v / 10)%Q)
    /\ (forall u,
          In ("cur_voltage", u) items ->
          (forall u', In ("cur_voltage", u') items -> u' = u) ->
          u <> 0 ->
          voltageV obs = Some (inject_Z u / 10)%Q).
Proof.
  intros G S D K R.
  rewrite (check_success deviceId deviceName w w1 w2 deviceInfo resp d G S D K).
  eexists. split; [reflexivity |].
  cbn [powerConsumptionW voltageV]. rewrite R, !statusMap_of_items. split.
  - intros v Hin Hall Hv. rewrite (last_value_unique _ _ _ Hin Hall).
    unfold Js.or_num at 1. simpl Js.truthy_num.
    destruct (v =? 0) eqn:E; [apply Z.eqb_eq in E; contradiction |].
    reflexivity.
  - intros u Hin Hall Hu. rewrite (last_value_unique _ _ _ Hin Hall).
    unfold Js.or_num. simpl Js.truthy_num.
    destruct (u =? 0) eqn:E; [apply Z.eqb_eq in E; contradiction |].
    reflexivity.
Qed.

(** ** The prober does not touch the database *)

Lemma blind_ret {A} (a : A) : db_blind (ret a).
Proof. intros db calls rows w. reflexivity. Qed.

Lemma blind_throw {A} (e : Error) : db_blind (@throw A e).
Proof. intros db calls rows w. reflexivity. Qed.

Lemma blind_bind {A B} (c : M A) (k : A -> M B) :
  db_blind c -> (forall a, db_blind (k a)) -> db_blind (bind c k).
Proof.
  intros Hc Hk db calls rows w. unfold bind. rewrite Hc.
  destruct (c w) as [[a|e] w1]; cbn [fst snd]; [apply Hk | reflexivity].
Qed.

Lemma blind_try_catch {A} (c : M A) (h : Error -> M A) :
  db_blind c -> (forall e, db_blind (h e)) -> db_blind (try_catch c h).
Proof.
  intros Hc Hh db calls rows w. unfold try_catch. rewrite Hc.
  destruct (c w) as [[a|e] w1]; cbn [fst snd]; [reflexivity | apply Hh].
Qed.

Lemma blind_gets {A} (f : World -> A) :
  (forall db calls rows w, f (with_db db calls rows w) = f w) ->
  db_blind (gets f).
Proof.
  intros Hf db calls rows w. unfold gets. rewrite Hf. reflexivity.
Qed.

Lemma blind_modify (f : World -> World) :
  (forall db calls rows w,
     f (with_db db calls rows w) = with_db db calls rows (f w)) ->
  db_blind (modify f).
Proof.
  intros Hf db calls rows w. unfold modify. rewrite Hf. reflexivity.
Qed.

Lemma blind_axios (r : Request) : db_blind (axios r).
Proof.
  intros db calls rows w. unfold axios. cbn [network sent with_db].
  destruct (reply _); reflexivity.
Qed.

Lemma blind_Date_now : db_blind Date_now.
Proof. apply blind_gets. reflexivity. Qed.

Lemma blind_clear_token : db_blind clear_token.
Proof.
  unfold clear_token. apply blind_bind; [| intros _];
    apply blind_modify; reflexivity.
Qed.

Create HintDb blind.
#[local] Hint Resolve blind_ret blind_throw blind_axios blind_Date_now
  blind_clear_token : blind.

Ltac blind_step :=
  match goal with
  | |- db_blind (bind _ _) => apply blind_bind; [| intros ?]
  | |- db_blind (try_catch _ _) => apply blind_try_catch; [| intros ?]
  | |- db_blind (gets _) => apply blind_gets; reflexivity
  | |- db_blind (modify _) => apply blind_modify; reflexivity
  | |- db_blind (let '(_, _) := ?p in _) => destruct p
  | |- db_blind (match ?x with _ => _ end) => destruct x
  | |- db_blind _ => solve [auto with blind]
  end.

Lemma blind_fetchToken : db_blind fetchToken.
Proof. unfold fetchToken. repeat blind_step. Qed.

Lemma blind_getAccessToken (forceRefresh : bool) :
  db_blind (getAccessToken forceRefresh).
Proof.
  intros db calls rows w. unfold getAccessToken.
  cbn [accessToken tokenExpiryTime now with_db].
  destruct (Js.truthy_str (accessToken w) && negb forceRefresh).
  - destruct (Js.truthy_num (tokenExpiryTime w) && _); [reflexivity |].
    apply (blind_fetchToken db calls rows (set_accessToken None w)).
  - apply blind_fetchToken.
Qed.

Lemma blind_makeTuyaRequest_from (n : nat) :
  forall (path : string) (query : Query) (body : Body) (retryCount : nat),
    (MAX_RETRIES - retryCount <= n)%nat ->
    db_blind (makeTuyaRequest path "GET" query body retryCount).
Proof.
  induction n as [|n IH]; intros path query body retryCount Hn db calls rows w.
  - rewrite !(makeTuyaRequest_frame path "GET" query body retryCount)
      by reflexivity.
    rewrite blind_getAccessToken.
    destruct (getAccessToken false w) as [[token|e] w1]; cbn [fst snd];
      [| reflexivity].
    cbv zeta.
    assert (L : (retryCount <? MAX_RETRIES)%nat = false)
      by (apply Nat.ltb_ge; lia).
    rewrite L, !andb_false_r. reflexivity.
  - rewrite !(makeTuyaRequest_frame path "GET" query body retryCount)
      by reflexivity.
    rewrite blind_getAccessToken.
    destruct (getAccessToken false w) as [[token|e] w1]; cbn [fst snd];
      [| reflexivity].
    cbv zeta. cbn [network sent with_db].
    destruct (auth_rejection _ && (retryCount <? MAX_RETRIES)%nat) eqn:R;
      [| reflexivity].
    apply andb_true_iff in R. destruct R as [_ R]. apply Nat.ltb_lt in R.
    refine (IH path query body (retryCount + 1)%nat _ db calls rows
              (cleared (exchange (data_request path "GET" query body token w1)
                          w1))).
    lia.
Qed.

Lemma blind_makeTuyaRequest (path : string) (query : Query) (body : Body)
    (retryCount : nat) :
  db_blind (makeTuyaRequest path "GET" query body retryCount).
Proof.
  apply (blind_makeTuyaRequest_from MAX_RETRIES). lia.
Qed.

#[local] Hint Resolve blind_makeTuyaRequest : blind.

Lemma blind_getDeviceInfo (deviceId : string) : db_blind (getDeviceInfo deviceId).
Proof. unfold getDeviceInfo. repeat blind_step. Qed.

#[local] Hint Resolve blind_getDeviceInfo : blind.

Lemma blind_checkDeviceAvailability (deviceId : string)
    (deviceName : option string) :
  db_blind (checkDeviceAvailability deviceId deviceName).
Proof. unfold checkDeviceAvailability. repeat blind_step. Qed.

Lemma with_db_self (w : World) :
  with_db (database w) (db_calls w) (power_status w) w = w.
Proof. destruct w; reflexivity. Qed.

Lemma blind_frame {A} (c : M A) (w : World) :
  db_blind c ->
  snd (c w)
  = with_db (database w) (db_calls w) (power_status w) (snd (c w)).
Proof.
  intros H.
  pose proof (H (database w) (db_calls w) (power_status w) w) as E.
  rewrite with_db_self in E.
  apply (f_equal snd) in E. exact E.
Qed.

(** Every probe returns an Observation of the device it was asked about;
    one that reports an error is offline and carries no reading. *)
Lemma check_shape (dId : string) (dName : option string)
    (w : World) :
  exists obs w',
    checkDeviceAvailability dId dName w = (Returned obs, w')
    /\ deviceId obs = dId
    /\ deviceName obs = dName
    /\ (error obs <> None ->
        isOnline obs = false
        /\ powerConsumptionW obs = None /\ voltageV obs = None).
Proof.
  destruct (getDeviceInfo_returns dId w) as [info [w1 G]].
  destruct (makeTuyaRequest (status_path dId) "GET" [] empty_object 0 w1)
    as [[resp|e] w2] eqn:S.
  - destruct (status_ok (Returned resp)) eqn:K.
    + simpl in K. destruct (data resp) as [d|] eqn:D; [| discriminate].
      rewrite (check_success dId dName w w1 w2 info resp d G S D K).
      eexists. eexists. split; [reflexivity |]. simpl.
      repeat split; congruence.
    + destruct (check_error_envelope dId dName w w1 w2 info resp
                  G S K) as [m E].
      rewrite E. eexists. eexists. split; [reflexivity |]. simpl. auto.
  - destruct (check_thrown dId dName w w1 w2 info e G S) as [m E].
    rewrite E. eexists. eexists. split; [reflexivity |]. simpl. auto.
Qed.

(** ** Poll cycle *)

Lemma blind_probe (device : Device) : db_blind (probe device).
Proof. apply blind_checkDeviceAvailability. Qed.

Lemma blind_all_probe (devices : list Device) : db_blind (all probe devices).
Proof.
  induction devices as [|d r IH]; simpl.
  - apply blind_ret.
  - apply blind_bind; [apply blind_probe | intros o].
    apply blind_bind; [exact IH | intros os]. apply blind_ret.
Qed.

Lemma check_device_eq (device : Device) (w w1 : World) (obs : Observation) :
  probe device w = (Returned obs, w1) ->
  check_device device w = (Returned obs, db_step (saved_rows obs w1) w1).
Proof.
  unfold probe, check_device. intros P.
  unfold try_catch at 1. unfold bind at 1. rewrite P.
  unfold bind, try_catch, savePowerStatus, saved_rows, persisted_row, ret.
  destruct (database w1 (db_calls w1)); reflexivity.
Qed.

Lemma persisted_row_ok (obs : Observation) : row_ok (persisted_row obs).
Proof.
  unfold row_ok, persisted_row. simpl. intros H. rewrite H. reflexivity.
Qed.

Lemma saved_rows_ok (obs : Observation) (w : World) :
  Forall row_ok (saved_rows obs w).
Proof.
  unfold saved_rows. destruct (database w (db_calls w)); constructor;
    [apply persisted_row_ok | constructor].
Qed.

Lemma all_probe_returns (devices : list Device) (w : World) :
  exists obs w',
    all probe devices w = (Returned obs, w')
    /\ map deviceId obs = map id devices
    /\ map deviceName obs = map (fun d => Some (name d)) devices.
Proof.
  revert w. induction devices as [|d r IH]; intros w; simpl.
  - exists [], w. repeat split.
  - unfold bind at 1.
    destruct (check_shape (id d) (Some (name d)) w)
      as [o [w1 [P [I [N _]]]]].
    unfold probe at 1. rewrite P.
    destruct (IH w1) as [os [w2 [A [Is Ns]]]].
    unfold bind. rewrite A. unfold ret.
    exists (o :: os), w2. simpl. rewrite I, N, Is, Ns. repeat split.
Qed.





(** C1 (amended): an Observation that reports an error (every failure
    path) is offline and has no readings: its [powerConsumptionW] and
    [voltageV] are null. When the status call succeeds, the Observation has
    no error and carries the power and voltage scaled from the telemetry
    of that response, whatever the metadata says about [online]; the poll
    cycle then stores no power reading in any row it writes with
    [is_online = false]. *)
Theorem offline_readings_absent :
  (forall deviceId deviceName w obs w',
     checkDeviceAvailability deviceId deviceName w = (Returned obs, w') ->
     isOnline obs = false ->
     error obs <> None ->
     powerConsumptionW obs = None /\ voltageV obs = None)
  /\ (forall deviceId deviceName w w1 w2 deviceInfo resp d,
        getDeviceInfo deviceId w = (Returned deviceInfo, w1) ->
        makeTuyaRequest (status_path deviceId) "GET" [] empty_object 0 w1
        = (Returned resp, w2) ->
        data resp = Some d ->
        success d = true ->
        exists obs,
          checkDeviceAvailability deviceId deviceName w = (Returned obs, w2)
          /\ error obs = None
          /\ powerConsumptionW obs =
             tenth (Js.or_num (statusMap_of (result d) "cur_power")
                      (Js.or_num (statusMap_of (result d) "cur_power_1")
                         (Js.or_num (statusMap_of (result d) "power") None)))
          /\ voltageV obs =
             tenth (Js.or_num (statusMap_of (result d) "cur_voltage") None))
  /\ (forall device w,
        exists rows,
          power_status (snd (check_device device w))
          = (rows ++ power_status w)%list
          /\ Forall row_ok rows).
Proof.
  split; [| split].
  - intros deviceId deviceName w obs w' E Hoff Herr.
    destruct (check_shape deviceId deviceName w)
      as [obs' [w'' [E' [_ [_ H]]]]].
    rewrite E in E'. inversion E'; subst obs' w''.
    destruct (H Herr) as [_ [Hp Hv]]. split; assumption.
  - intros deviceId deviceName w w1 w2 deviceInfo resp d G S D K.
    rewrite (check_success deviceId deviceName w w1 w2 deviceInfo resp d
               G S D K).
    eexists. split; [reflexivity |]. simpl. repeat split.
  - intros device w.
    destruct (check_shape (id device) (Some (name device)) w)
      as [o [w1 [P _]]].
    fold (probe device) in P.
    pose proof (blind_frame (probe device) w (blind_probe device)) as F.
    rewrite P in F. cbn [snd] in F.
    rewrite (check_device_eq device w w1 o P). cbn [snd].
    exists (saved_rows o w1). split; [| apply saved_rows_ok].
    assert (Hp : power_status w1 = power_status w)
      by (rewrite F; reflexivity).
    simpl. rewrite Hp. reflexivity.
Qed.



(** * Further properties of the code *)

(** ** The signature does not depend on the order of the query entries *)

Lemma string_leb_iff (a b : string) :
  String.leb a b = true <-> a = b \/ OrderedTypeEx.String_as_OT.lt a b.
Proof.
  unfold String.leb.
  destruct (String.compare a b) eqn:C; split; intros H; try reflexivity.
  - left. apply String.compare_eq_iff. exact C.
  - right. apply OrderedTypeEx.String_as_OT.cmp_lt. exact C.
  - discriminate.
  - exfalso. destruct H as [H|H].
    + subst b.
      assert (D : OrderedTypeEx.String_as_OT.cmp a a = Eq)
        by (apply OrderedTypeEx.String_as_OT.cmp_eq; reflexivity).
      unfold OrderedTypeEx.String_as_OT.cmp in D. congruence.
    + apply OrderedTypeEx.String_as_OT.cmp_lt in H. unfold OrderedTypeEx.String_as_OT.cmp in H.
      congruence.
Qed.

Lemma string_leb_trans (a b c : string) :
  String.leb a b = true -> String.leb b c = true -> String.leb a c = true.
Proof.
  rewrite !string_leb_iff. intros [->|H1] [->|H2]; auto.
  right. exact (OrderedTypeEx.String_as_OT.lt_trans _ _ _ H1 H2).
Qed.

Lemma entry_ordered_trans (a b c : string * string) :
  entry_ordered a b -> entry_ordered b c -> entry_ordered a c.
Proof. apply string_leb_trans. Qed.

Lemma sort_entries_strongly_sorted (l : list (string * string)) :
  StronglySorted entry_ordered (Js.sort_entries l).
Proof.
  apply Sorted_StronglySorted.
  - intros a b c. apply entry_ordered_trans.
  - apply sort_entries_sorted.
Qed.

Lemma key_injective (l : list (string * string)) (a b : string * string) :
  NoDup (map Js.entry_key l) -> In a l -> In b l ->
  Js.entry_key a = Js.entry_key b -> a = b.
Proof.
  induction l as [|x r IH]; simpl; [contradiction |].
  intros N Ha Hb E. inversion N as [|? ? Nx Nr]; subst.
  destruct Ha as [Ha|Ha], Hb as [Hb|Hb]; subst.
  - reflexivity.
  - exfalso. apply Nx. rewrite E. apply in_map. exact Hb.
  - exfalso. apply Nx. rewrite <- E. apply in_map. exact Ha.
  - apply IH; assumption.
Qed.

(** Two sorted lists with the same entries, whose keys are distinct, are
    the same list. *)
Lemma sorted_entries_unique (l1 l2 : list (string * string)) :
  StronglySorted entry_ordered l1 ->
  StronglySorted entry_ordered l2 ->
  Permutation l1 l2 ->
  NoDup (map Js.entry_key l1) ->
  l1 = l2.
Proof.
  revert l2. induction l1 as [|a r1 IH]; intros l2 S1 S2 P N.
  - apply Permutation_nil in P. subst. reflexivity.
  - destruct l2 as [|b r2].
    + apply Permutation_sym, Permutation_nil in P. discriminate.
    + inversion S1 as [|? ? Sr1 Fa]; subst.
      inversion S2 as [|? ? Sr2 Fb]; subst.
      assert (E : a = b).
      { assert (Ia : In a (b :: r2))
          by (apply (Permutation_in _ P); now left).
        assert (Ib : In b (a :: r1))
          by (apply (Permutation_in _ (Permutation_sym P)); now left).
        destruct Ia as [Ia|Ia]; [now symmetry |].
        destruct Ib as [Ib|Ib]; [exact Ib |].
        rewrite Forall_forall in Fa, Fb.
        apply (key_injective (a :: r1)); simpl; auto.
        apply String.leb_antisym; [apply (Fa b Ib) | apply (Fb a Ia)]. }
      subst b. f_equal.
      apply IH; try assumption.
      * eapply Permutation_cons_inv. exact P.
      * simpl in N. inversion N; assumption.
Qed.

Lemma sort_entries_permutation_invariant (q q' : Query) :
  Permutation q q' ->
  NoDup (map Js.entry_key q) ->
  Js.sort_entries q = Js.sort_entries q'.
Proof.
  intros P N. apply sorted_entries_unique.
  - apply sort_entries_strongly_sorted.
  - apply sort_entries_strongly_sorted.
  - apply perm_trans with q; [apply Permutation_sym, sort_entries_perm |].
    apply perm_trans with q'; [exact P | apply sort_entries_perm].
  - apply (Permutation_NoDup (l := map Js.entry_key q)); [| exact N].
    apply Permutation_map, sort_entries_perm.
Qed.

(** X1: the signature does not depend on the order in which the query
    entries are given, as long as no two entries have the same text
    [key,value]. *)
Theorem signRequest_query_order (path method : string) (q q' : Query)
    (body : Body) (token : option string) (w : World) :
  Permutation q q' ->
  NoDup (map Js.entry_key q) ->
  signRequest path method q body token w
  = signRequest path method q' body token w.
Proof.
  intros P N. unfold signRequest.
  rewrite (sort_entries_permutation_invariant q q' P N). reflexivity.
Qed.

(** ** Token cache: failures and invalidation *)

(** X2: when [getAccessToken] throws, it has sent one token request, the
    cache is empty afterwards (no token and no expiry time), and the error
    is a fresh [Error] whose message is the fixed prefix followed by the
    cause: it carries no [code] and no [response]. *)
Theorem getAccessToken_failure (forceRefresh : bool) (w w' : World)
    (e : Error) :
  getAccessToken forceRefresh w = (Thrown e, w') ->
  accessToken w' = None
  /\ tokenExpiryTime w' = None
  /\ sent w' = token_request (before_fetch forceRefresh w) :: sent w
  /\ err_code e = None
  /\ response e = None
  /\ exists cause, message e = token_error_prefix ++ cause.
Proof.
  rewrite getAccessToken_eq.
  destruct (cache_hit forceRefresh w); [discriminate |].
  assert (Bs : sent (before_fetch forceRefresh w) = sent w).
  { unfold before_fetch.
    destruct (Js.truthy_str (accessToken w) && negb forceRefresh);
      reflexivity. }
  rewrite fetchToken_eq. cbv zeta. rewrite <- Bs.
  destruct (reply _) as [e0|resp].
  - intros H; inversion H; subst; simpl; repeat split; eauto.
  - destruct (data resp) as [d|].
    + destruct (success d).
      * destruct (get_access_token (result d)).
        -- discriminate.
        -- intros H; inversion H; subst; simpl; repeat split; eauto.
      * intros H; inversion H; subst; simpl; repeat split; eauto.
    + intros H; inversion H; subst; simpl; repeat split; eauto.
Qed.

(** X3: [getAccessToken(true)] never answers from the cache: whatever the
    cache holds and whatever the time is, it sends one token request, and
    when the provider grants a token the cache holds that token with the
    new expiry time. *)
Theorem forceRefresh_always_fetches (w : World) :
  sent (snd (getAccessToken true w)) = token_request w :: sent w
  /\ forall resp d tok,
       reply (network w (List.length (sent w))) = inr resp ->
       data resp = Some d ->
       success d = true ->
       get_access_token (result d) = Some tok ->
       fst (getAccessToken true w) = Returned tok
       /\ accessToken (snd (getAccessToken true w)) = tok
       /\ tokenExpiryTime (snd (getAccessToken true w))
          = Some (Z.of_N (now w)
                  + Z.of_N (latency (network w (List.length (sent w))))
                  + lifetime_ms (result d) - 300000).
Proof.
  assert (E : getAccessToken true w = fetchToken w).
  { rewrite getAccessToken_eq. unfold cache_hit, before_fetch.
    rewrite !andb_false_r. reflexivity. }
  rewrite E. split; [apply fetchToken_sent |].
  intros resp d tok R D S T. rewrite fetchToken_eq. cbv zeta.
  rewrite R, D, S, T. cbn [fst snd accessToken tokenExpiryTime
                             set_accessToken set_tokenExpiryTime exchange now].
  repeat split. f_equal. lia.
Qed.

(** X4: after [resetToken()] the next [getAccessToken()] goes to the
    provider, whatever the cache held and however far its expiry time
    was; and [resetToken()] done twice is [resetToken()] done once. *)
Theorem resetToken_forces_fetch (w : World) :
  let w0 := snd (resetToken w) in
  accessToken w0 = None
  /\ tokenExpiryTime w0 = None
  /\ sent (snd (getAccessToken false w0)) = token_request w0 :: sent w
  /\ snd (resetToken w0) = w0.
Proof.
  cbv zeta. unfold resetToken, bind, modify. cbn [fst snd].
  repeat split.
  rewrite getAccessToken_eq. unfold cache_hit, before_fetch. simpl.
  rewrite fetchToken_sent. reflexivity.
Qed.

(** ** Requests: unsupported methods, rate limiting, bounded work *)

Lemma makeTuyaRequest_unsupported_frame (path method : string)
    (query : Query) (body : Body) (retryCount : nat) (w : World) :
  supported method = false ->
  makeTuyaRequest path method query body retryCount w =
  match getAccessToken false w with
  | (Thrown e, w1) => (Thrown e, w1)
  | (Returned token, w1) =>
      (Thrown (new_Error ("Unsupported method: " ++ method)), w1)
  end.
Proof.
  intros Hm. rewrite makeTuyaRequest_equation_1.
  unfold bind at 1. unfold try_catch. unfold bind at 1.
  destruct (getAccessToken false w) as [[token|e] w1] eqn:G.
  - unfold bind at 1. unfold gets at 1.
    destruct (signRequest path method query body token w1) as [t sign].
    cbv zeta. unfold supported in Hm.
    destruct (method =? "GET")%string; [discriminate |].
    destruct (method =? "POST")%string; [discriminate |].
    destruct (method =? "PUT")%string; [discriminate |].
    reflexivity.
  - destruct (getAccessToken_thrown _ _ _ _ G) as [R _].
    rewrite R. reflexivity.
Qed.

(** X5: a method other than GET, POST and PUT is refused with the error
    [Unsupported method: M] before any request is made for it: at most the
    token request has been sent. *)
Theorem unsupported_method_sends_nothing (path method : string)
    (query : Query) (body : Body) (w : World) :
  supported method = false ->
  let r := makeTuyaRequest path method query body 0 w in
  sent (snd r) = sent (snd (getAccessToken false w))
  /\ (forall token w1,
        getAccessToken false w = (Returned token, w1) ->
        fst r = Thrown (new_Error ("Unsupported method: " ++ method)))
  /\ exists e, fst r = Thrown e.
Proof.
  intros Hm. cbv zeta.
  rewrite (makeTuyaRequest_unsupported_frame path method query body 0 w Hm).
  destruct (getAccessToken false w) as [[token|e] w1]; cbn [fst snd].
  - split; [reflexivity |]. split; [reflexivity | eauto].
  - split; [reflexivity |]. split; [discriminate | eauto].
Qed.

Lemma rate_limited_not_auth (a : Answer) (resp : Response) :
  reply a = inr resp -> rate_limited resp = true -> auth_rejection a = false.
Proof.
  unfold rate_limited, auth_rejection. intros R.
  rewrite R. destruct (data resp) as [d|]; [| reflexivity].
  destruct (success d); simpl; [discriminate |].
  destruct (code d) as [c|]; simpl; [| reflexivity].
  intros H. apply Z.eqb_eq in H. subst c. reflexivity.
Qed.

(** X6: an error envelope with code 429 is not retried: the call throws
    [Rate limit exceeded] after that one request, and the cached token
    stays as it was. *)
Theorem rate_limit_is_terminal (path method : string) (query : Query)
    (body : Body) (w w1 : World) (token : option string) (resp : Response) :
  supported method = true ->
  getAccessToken false w = (Returned token, w1) ->
  reply (network w1 (List.length (sent w1))) = inr resp ->
  rate_limited resp = true ->
  let r := makeTuyaRequest path method query body 0 w in
  fst r = Thrown (new_Error "Rate limit exceeded")
  /\ sent (snd r) = data_request path method query body token w1 :: sent w1
  /\ accessToken (snd r) = accessToken w1
  /\ tokenExpiryTime (snd r) = tokenExpiryTime w1.
Proof.
  intros Hm G R L. cbv zeta.
  rewrite (makeTuyaRequest_frame path method query body 0 w Hm), G.
  cbv zeta. rewrite (rate_limited_not_auth _ resp R L). simpl andb. cbv iota.
  unfold surfaced. rewrite R, L. repeat split.
Qed.

Lemma getAccessToken_sent_le (forceRefresh : bool) (w : World) :
  exists new,
    sent (snd (getAccessToken forceRefresh w)) = (new ++ sent w)%list
    /\ (List.length new <= 1)%nat.
Proof.
  rewrite getAccessToken_eq. destruct (cache_hit forceRefresh w).
  - exists []. split; [reflexivity | simpl; lia].
  - rewrite fetchToken_sent.
    assert (Bs : sent (before_fetch forceRefresh w) = sent w).
    { unfold before_fetch.
      destruct (Js.truthy_str (accessToken w) && negb forceRefresh);
        reflexivity. }
    rewrite Bs. eexists [_]. split; [reflexivity | simpl; lia].
Qed.

Lemma makeTuyaRequest_sent_from (n : nat) :
  forall (path method : string) (query : Query) (body : Body)
         (retryCount : nat) (w : World),
    (MAX_RETRIES - retryCount <= n)%nat ->
    exists new,
      sent (snd (makeTuyaRequest path method query body retryCount w))
      = (new ++ sent w)%list
      /\ (List.length new <= 2 * S n)%nat.
Proof.
  induction n as [|n IH]; intros path method query body retryCount w Hn;
    destruct (supported method) eqn:Hm.
  - rewrite (makeTuyaRequest_frame path method query body retryCount w Hm).
    destruct (getAccessToken_sent_le false w) as [new [E L]].
    destruct (getAccessToken false w) as [[token|e] w1]; cbn [snd] in *.
    + cbv zeta.
      assert (F : (retryCount <? MAX_RETRIES)%nat = false)
        by (apply Nat.ltb_ge; lia).
      rewrite F, andb_false_r. cbn [snd exchange sent]. rewrite E.
      eexists (_ :: new). split; [reflexivity | simpl; lia].
    + exists new. split; [exact E | lia].
  - rewrite (makeTuyaRequest_unsupported_frame path method query body
               retryCount w Hm).
    destruct (getAccessToken_sent_le false w) as [new [E L]].
    destruct (getAccessToken false w) as [[token|e] w1]; cbn [snd] in *;
      exists new; (split; [exact E | lia]).
  - rewrite (makeTuyaRequest_frame path method query body retryCount w Hm).
    destruct (getAccessToken_sent_le false w) as [new [E L]].
    destruct (getAccessToken false w) as [[token|e] w1]; cbn [snd] in *.
    + cbv zeta.
      destruct (auth_rejection _ && (retryCount <? MAX_RETRIES)%nat) eqn:R.
      * apply andb_true_iff in R. destruct R as [_ R].
        apply Nat.ltb_lt in R.
        destruct (IH path method query body (retryCount + 1)%nat
                    (cleared (exchange (data_request path method query body
                                          token w1) w1)))
          as [new' [E' L']]; [lia |].
        rewrite E'. cbn [cleared set_tokenExpiryTime set_accessToken
                           exchange sent]. rewrite E.
        exists (new' ++ data_request path method query body token w1 :: new)%list.
        split.
        -- rewrite <- app_assoc. reflexivity.
        -- rewrite length_app. simpl. lia.
      * cbn [snd exchange sent]. rewrite E.
        eexists (_ :: new). split; [reflexivity | simpl; lia].
    + exists new. split; [exact E | lia].
  - rewrite (makeTuyaRequest_unsupported_frame path method query body
               retryCount w Hm).
    destruct (getAccessToken_sent_le false w) as [new [E L]].
    destruct (getAccessToken false w) as [[token|e] w1]; cbn [snd] in *;
      exists new; (split; [exact E | lia]).
Qed.

Lemma makeTuyaRequest_sent_le (path method : string) (query : Query)
    (body : Body) (w : World) :
  exists new,
    sent (snd (makeTuyaRequest path method query body 0 w))
    = (new ++ sent w)%list
    /\ (List.length new <= 4)%nat.
Proof.
  destruct (makeTuyaRequest_sent_from MAX_RETRIES path method query body 0 w)
    as [new [E L]]; [lia |].
  exists new. split; [exact E | unfold MAX_RETRIES in L; lia].
Qed.

Lemma checkDeviceAvailability_sent_le (dId : string) (dName : option string)
    (w : World) :
  exists new,
    sent (snd (checkDeviceAvailability dId dName w)) = (new ++ sent w)%list
    /\ (List.length new <= 8)%nat.
Proof.
  destruct (getDeviceInfo_returns dId w) as [info [w1 G]].
  assert (G1 : exists n1, sent w1 = (n1 ++ sent w)%list
                          /\ (List.length n1 <= 4)%nat).
  { rewrite getDeviceInfo_eq in G. cbv zeta in G. inversion G.
    apply makeTuyaRequest_sent_le. }
  destruct G1 as [n1 [E1 L1]].
  destruct (makeTuyaRequest_sent_le (status_path dId) "GET" [] empty_object w1)
    as [n2 [E2 L2]].
  assert (W : snd (checkDeviceAvailability dId dName w)
              = snd (makeTuyaRequest (status_path dId) "GET" [] empty_object
                       0 w1)).
  { destruct (makeTuyaRequest (status_path dId) "GET" [] empty_object 0 w1)
      as [[resp|e] w2] eqn:S; cbn [snd].
    - destruct (status_ok (Returned resp)) eqn:K.
      + simpl in K. destruct (data resp) as [d|] eqn:D; [| discriminate].
        rewrite (check_success dId dName w w1 w2 info resp d G S D K).
        reflexivity.
      + destruct (check_error_envelope dId dName w w1 w2 info resp G S K)
          as [m E]. rewrite E. reflexivity.
    - destruct (check_thrown dId dName w w1 w2 info e G S) as [m E].
      rewrite E. reflexivity. }
  rewrite W, E2, E1. exists (n2 ++ n1)%list.
  split; [apply app_assoc | rewrite length_app; lia].
Qed.

(** X7: the work of a call is bounded whatever the provider answers: one
    [makeTuyaRequest] sends at most four HTTP requests (two token fetches,
    two requests), and one probe at most eight; the requests sent before
    stay in the log. *)
Theorem bounded_requests (path method : string) (query : Query) (body : Body)
    (deviceId : string) (deviceName : option string) (w : World) :
  (exists new,
     sent (snd (makeTuyaRequest path method query body 0 w))
     = (new ++ sent w)%list
     /\ (List.length new <= 4)%nat)
  /\ (exists new,
        sent (snd (checkDeviceAvailability deviceId deviceName w))
        = (new ++ sent w)%list
        /\ (List.length new <= 8)%nat).
Proof.
  split; [apply makeTuyaRequest_sent_le | apply checkDeviceAvailability_sent_le].
Qed.

(** ** Device prober: how failures are reported *)

Lemma check_world (dId : string) (dName : option string) (w : World) :
  snd (checkDeviceAvailability dId dName w)
  = snd (makeTuyaRequest (status_path dId) "GET" [] empty_object 0
           (snd (getDeviceInfo dId w))).
Proof.
  destruct (getDeviceInfo_returns dId w) as [info [w1 G]].
  rewrite G. cbn [snd].
  destruct (makeTuyaRequest (status_path dId) "GET" [] empty_object 0 w1)
    as [[resp|e] w2] eqn:S; cbn [snd].
  - destruct (status_ok (Returned resp)) eqn:K.
    + simpl in K. destruct (data resp) as [d|] eqn:D; [| discriminate].
      rewrite (check_success dId dName w w1 w2 info resp d G S D K).
      reflexivity.
    + destruct (check_error_envelope dId dName w w1 w2 info resp G S K)
        as [m E]. rewrite E. reflexivity.
  - destruct (check_thrown dId dName w w1 w2 info e G S) as [m E].
    rewrite E. reflexivity.
Qed.

Lemma check_thrown_message (dId : string) (dName : option string)
    (w w1 w2 : World) (deviceInfo : option Result) (e : Error) :
  getDeviceInfo dId w = (Returned deviceInfo, w1) ->
  makeTuyaRequest (status_path dId) "GET" [] empty_object 0 w1
  = (Thrown e, w2) ->
  exists obs,
    checkDeviceAvailability dId dName w = (Returned obs, w2)
    /\ isOnline obs = false
    /\ responseTimeMs obs = None
    /\ (err_code e = None -> error obs = Some (message e))
    /\ (err_code e = Some "ECONNABORTED" -> error obs = Some "Timeout")
    /\ (err_code e = Some "ENOTFOUND" \/ err_code e = Some "ECONNREFUSED" ->
        error obs = Some "Connection error")
    /\ (forall c, err_code e = Some c ->
        c <> "ECONNABORTED" -> c <> "ENOTFOUND" -> c <> "ECONNREFUSED" ->
        error obs = Some (message e)).
Proof.
  intros G S. unfold checkDeviceAvailability, status_path in *.
  unfold bind at 1. unfold Date_now at 1, gets at 1.
  unfold try_catch. unfold bind at 1. rewrite G.
  cbv zeta. unfold bind at 1. rewrite S. unfold ret.
  eexists. split; [reflexivity |]. cbn [isOnline responseTimeMs error].
  split; [reflexivity |]. split; [reflexivity |].
  split; [| split; [| split]].
  - intros H. rewrite H. reflexivity.
  - intros H. rewrite H. reflexivity.
  - intros [H|H]; rewrite H; reflexivity.
  - intros c H N1 N2 N3. rewrite H.
    apply String.eqb_neq in N1, N2, N3. rewrite N1, N2, N3. reflexivity.
Qed.

(** X8: when the status request itself fails on the network (axios
    rejects without an HTTP response), the probe reports the device
    offline and names the failure by the axios code: [ECONNABORTED] is
    reported as [Timeout], [ENOTFOUND] and [ECONNREFUSED] as
    [Connection error], and anything else by the message of the error. *)
Theorem network_failure_classified (deviceId : string)
    (deviceName : option string) (w w1 w1' : World)
    (deviceInfo : option Result) (token : option string) (e : Error) :
  getDeviceInfo deviceId w = (Returned deviceInfo, w1) ->
  getAccessToken false w1 = (Returned token, w1') ->
  reply (network w1' (List.length (sent w1'))) = inl e ->
  response e = None ->
  exists obs w2,
    checkDeviceAvailability deviceId deviceName w = (Returned obs, w2)
    /\ isOnline obs = false
    /\ responseTimeMs obs = None
    /\ powerConsumptionW obs = None
    /\ (err_code e = Some "ECONNABORTED" -> error obs = Some "Timeout")
    /\ (err_code e = Some "ENOTFOUND" \/ err_code e = Some "ECONNREFUSED" ->
        error obs = Some "Connection error")
    /\ (err_code e = None -> error obs = Some (message e))
    /\ (forall c, err_code e = Some c ->
        c <> "ECONNABORTED" -> c <> "ENOTFOUND" -> c <> "ECONNREFUSED" ->
        error obs = Some (message e)).
Proof.
  intros G T R N.
  assert (S : makeTuyaRequest (status_path deviceId) "GET" [] empty_object 0 w1
              = (Thrown e,
                 exchange (data_request (status_path deviceId) "GET" []
                             empty_object token w1') w1')).
  { rewrite (makeTuyaRequest_frame _ "GET" [] empty_object 0 w1 eq_refl), T.
    cbv zeta. unfold auth_rejection, surfaced. rewrite R, N. reflexivity. }
  destruct (check_thrown_message deviceId deviceName w w1 _ deviceInfo e G S)
    as [obs [E [O [RT [C0 [C1 [C2 C3]]]]]]].
  exists obs. eexists. split; [exact E |].
  split; [exact O |]. split; [exact RT |].
  split.
  - destruct (check_shape deviceId deviceName w) as [o' [w' [E' [_ [_ H]]]]].
    rewrite E in E'. inversion E'; subst o' w'.
    apply H.
    destruct (err_code e) as [c|] eqn:EC.
    + destruct (string_dec c "ECONNABORTED") as [->|N1];
        [rewrite C1 by reflexivity; discriminate |].
      destruct (string_dec c "ENOTFOUND") as [->|N2];
        [rewrite C2 by (left; reflexivity); discriminate |].
      destruct (string_dec c "ECONNREFUSED") as [->|N3];
        [rewrite C2 by (right; reflexivity); discriminate |].
      rewrite (C3 c eq_refl N1 N2 N3). discriminate.
    + rewrite C0 by reflexivity. discriminate.
  - auto.
Qed.

(** X9: a failure of the token fetch is not classified. With an empty
    cache and a provider that fails both token requests of the probe (the
    one of the metadata call and the one of the status call), the probe
    sends these two requests only and reports the device offline with the
    token prefix followed by the message of the second failure, also when
    that failure was a timeout. *)
Theorem token_failure_reported_with_prefix (deviceId : string)
    (deviceName : option string) (w : World) (e1 e2 : Error) :
  cache_hit false w = false ->
  reply (network w (List.length (sent w))) = inl e1 ->
  reply (network w (S (List.length (sent w)))) = inl e2 ->
  exists obs w2 r1 r2,
    checkDeviceAvailability deviceId deviceName w = (Returned obs, w2)
    /\ isOnline obs = false
    /\ error obs = Some (token_error_prefix ++ message e2)
    /\ sent w2 = r2 :: r1 :: sent w
    /\ req_url r1 = API_BASE_URL ++ "/v1.0/token"
    /\ req_url r2 = API_BASE_URL ++ "/v1.0/token"
    /\ accessToken w2 = None.
Proof.
  intros Hmiss R1 R2.
  set (w0 := before_fetch false w).
  assert (B : network w0 = network w /\ sent w0 = sent w).
  { unfold w0, before_fetch.
    destruct (Js.truthy_str (accessToken w) && negb false); split; reflexivity. }
  destruct B as [Bn Bs].
  set (w1 := cleared (exchange (token_request w0) w0)).
  assert (T1 : getAccessToken false w
               = (Thrown (new_Error (token_error_prefix ++ message e1)), w1)).
  { rewrite getAccessToken_eq, Hmiss. fold w0. rewrite fetchToken_eq.
    cbv zeta. rewrite Bn, Bs, R1. reflexivity. }
  assert (G : getDeviceInfo deviceId w = (Returned None, w1)).
  { rewrite getDeviceInfo_eq. cbv zeta.
    rewrite (makeTuyaRequest_frame _ "GET" [] empty_object 0 w eq_refl), T1.
    reflexivity. }
  set (w2 := cleared (exchange (token_request w1) w1)).
  assert (T2 : getAccessToken false w1
               = (Thrown (new_Error (token_error_prefix ++ message e2)), w2)).
  { rewrite getAccessToken_eq. unfold cache_hit, before_fetch.
    cbn [accessToken w1 cleared set_tokenExpiryTime set_accessToken
           Js.truthy_str andb].
    rewrite fetchToken_eq. cbv zeta.
    assert (I : List.length (sent w1) = S (List.length (sent w)))
      by (simpl; rewrite Bs; reflexivity).
    assert (Nw : network w1 = network w) by (simpl; exact Bn).
    rewrite I, Nw, R2. reflexivity. }
  assert (S : makeTuyaRequest (status_path deviceId) "GET" [] empty_object 0 w1
              = (Thrown (new_Error (token_error_prefix ++ message e2)), w2)).
  { rewrite (makeTuyaRequest_frame _ "GET" [] empty_object 0 w1 eq_refl), T2.
    reflexivity. }
  destruct (check_thrown_message deviceId deviceName w w1 w2 None _ G S)
    as [obs [E [O [_ [C0 _]]]]].
  exists obs, w2, (token_request w0), (token_request w1).
  split; [exact E |]. split; [exact O |].
  split; [apply C0; reflexivity |].
  split; [simpl; rewrite Bs; reflexivity |].
  repeat split.
Qed.

(** X10: with a cached token that is valid, and still valid when the
    metadata call has returned, and a provider that does not reject it, a
    probe sends exactly two requests, the metadata request and then the
    status request, both with the cached token; no token is fetched and
    the cache is left as it was. *)
Theorem valid_token_is_shared (deviceId : string) (deviceName : option string)
    (w : World) (expiry : Z) :
  Js.truthy_str (accessToken w) = true ->
  tokenExpiryTime w = Some expiry ->
  Z.of_N (now w) + Z.of_N (latency (network w (List.length (sent w))))
  < expiry ->
  auth_rejection (network w (List.length (sent w))) = false ->
  auth_rejection (network w (S (List.length (sent w)))) = false ->
  let w2 := snd (checkDeviceAvailability deviceId deviceName w) in
  let r1 := data_request (info_path deviceId) "GET" [] empty_object
              (accessToken w) w in
  let r2 := data_request (status_path deviceId) "GET" [] empty_object
              (accessToken w) (exchange r1 w) in
  sent w2 = r2 :: r1 :: sent w
  /\ req_access_token r1 = accessToken w
  /\ req_access_token r2 = accessToken w
  /\ accessToken w2 = accessToken w
  /\ tokenExpiryTime w2 = tokenExpiryTime w.
Proof.
  intros Tk Ex Lt A1 A2. cbv zeta.
  set (r1 := data_request (info_path deviceId) "GET" [] empty_object
               (accessToken w) w).
  set (w1 := exchange r1 w).
  set (r2 := data_request (status_path deviceId) "GET" [] empty_object
               (accessToken w) w1).
  assert (Lt0 : Z.of_N (now w) < expiry) by lia.
  assert (H0 : cache_hit false w = true).
  { unfold cache_hit. rewrite Tk, Ex. simpl.
    apply andb_true_intro. split.
    - apply negb_true_iff, Z.eqb_neq. lia.
    - apply Z.ltb_lt. lia. }
  assert (H1 : cache_hit false w1 = true).
  { unfold cache_hit. cbn [accessToken tokenExpiryTime now w1 exchange].
    rewrite Tk, Ex. simpl.
    apply andb_true_intro. split.
    - apply negb_true_iff, Z.eqb_neq. lia.
    - apply Z.ltb_lt. lia. }
  assert (M1 : makeTuyaRequest (info_path deviceId) "GET" [] empty_object 0 w
               = (surfaced (network w (List.length (sent w))), w1)).
  { rewrite (makeTuyaRequest_frame _ "GET" [] empty_object 0 w eq_refl).
    rewrite getAccessToken_eq, H0. cbv zeta. rewrite A1. reflexivity. }
  assert (G : snd (getDeviceInfo deviceId w) = w1).
  { rewrite getDeviceInfo_eq. cbv zeta. rewrite M1. reflexivity. }
  assert (M2 : makeTuyaRequest (status_path deviceId) "GET" [] empty_object 0 w1
               = (surfaced (network w (S (List.length (sent w)))),
                  exchange r2 w1)).
  { rewrite (makeTuyaRequest_frame _ "GET" [] empty_object 0 w1 eq_refl).
    rewrite getAccessToken_eq, H1. cbv zeta.
    cbn [network sent w1 exchange List.length]. rewrite A2. reflexivity. }
  rewrite check_world, G, M2. cbn [snd]. repeat split.
Qed.

(** ** Device prober: the shape of an Observation *)

(** X11: every Observation is of one of two shapes. Without an error it
    carries the time the whole probe took, from before the metadata call
    to the arrival of the status response; with an error it is offline and
    carries no time and no reading. An online Observation has no error.
    The Observation names the device that was asked about. *)
Theorem observation_shape (dId : string) (dName : option string)
    (w w' : World) (obs : Observation) :
  checkDeviceAvailability dId dName w = (Returned obs, w') ->
  deviceId obs = dId
  /\ deviceName obs = dName
  /\ (error obs = None ->
      responseTimeMs obs = Some (Z.of_N (now w') - Z.of_N (now w)))
  /\ (error obs <> None ->
      isOnline obs = false
      /\ responseTimeMs obs = None
      /\ powerConsumptionW obs = None
      /\ voltageV obs = None)
  /\ (isOnline obs = true -> error obs = None).
Proof.
  intros E.
  destruct (getDeviceInfo_returns dId w) as [info [w1 G]].
  destruct (makeTuyaRequest (status_path dId) "GET" [] empty_object 0 w1)
    as [[resp|e] w2] eqn:S.
  - destruct (status_ok (Returned resp)) eqn:K.
    + simpl in K. destruct (data resp) as [d|] eqn:D; [| discriminate].
      rewrite (check_success dId dName w w1 w2 info resp d G S D K) in E.
      inversion E; subst; simpl. repeat split; congruence.
    + destruct (check_error_envelope dId dName w w1 w2 info resp G S K)
        as [m E'].
      rewrite E' in E. inversion E; subst; simpl.
      repeat split; congruence.
  - destruct (check_thrown dId dName w w1 w2 info e G S) as [m E'].
    rewrite E' in E. inversion E; subst; simpl.
    repeat split; congruence.
Qed.

(** X12: the power reading falls back along the codes: when [cur_power]
    is absent or zero and [cur_power_1] occurs with one non-zero value
    [v], the reading is [v / 10]; when both are absent or zero and [power]
    occurs with one non-zero value [v], the reading is [v / 10]. *)
Theorem power_code_fallback (deviceId : string) (deviceName : option string)
    (w w1 w2 : World) (deviceInfo : option Result) (resp : Response)
    (d : Envelope) (items : list (string * Z)) :
  getDeviceInfo deviceId w = (Returned deviceInfo, w1) ->
  makeTuyaRequest (status_path deviceId) "GET" [] empty_object 0 w1
  = (Returned resp, w2) ->
  data resp = Some d ->
  success d = true ->
  result d = StatusResult items ->
  (forall v, In ("cur_power", v) items -> v = 0) ->
  exists obs,
    checkDeviceAvailability deviceId deviceName w = (Returned obs, w2)
    /\ (forall v,
          In ("cur_power_1", v) items ->
          (forall v', In ("cur_power_1", v') items -> v' = v) ->
          v <> 0 ->
          powerConsumptionW obs = Some (inject_Z v / 10)%Q)
    /\ (forall v,
          (forall v', In ("cur_power_1", v') items -> v' = 0) ->
          In ("power", v) items ->
          (forall v', In ("power", v') items -> v' = v) ->
          v <> 0 ->
          powerConsumptionW obs = Some (inject_Z v / 10)%Q).
Proof.
  intros G S D K R Z0.
  rewrite (check_success deviceId deviceName w w1 w2 deviceInfo resp d G S D K).
  eexists. split; [reflexivity |].
  cbn [powerConsumptionW]. rewrite R, !statusMap_of_items.
  assert (F : forall c, (forall v, In (c, v) items -> v = 0) ->
                        Js.truthy_num (last_value c items) = false).
  { intros c H. destruct (last_value c items) as [x|] eqn:L; [| reflexivity].
    rewrite (H x (last_value_In _ _ _ L)). reflexivity. }
  assert (T : forall v, v <> 0 -> Js.truthy_num (Some v) = true).
  { intros v Hv. simpl. apply negb_true_iff, Z.eqb_neq. exact Hv. }
  split.
  - intros v Hin Hall Hv.
    unfold Js.or_num at 1. rewrite (F "cur_power" Z0).
    rewrite (last_value_unique _ _ _ Hin Hall).
    unfold Js.or_num at 1. rewrite (T v Hv). reflexivity.
  - intros v Z1 Hin Hall Hv.
    unfold Js.or_num at 1. rewrite (F "cur_power" Z0).
    unfold Js.or_num at 1. rewrite (F "cur_power_1" Z1).
    rewrite (last_value_unique _ _ _ Hin Hall).
    unfold Js.or_num. rewrite (T v Hv). reflexivity.
Qed.

(** X13: a success envelope whose [result] is absent, or is an object
    instead of a list, is still a successful probe: the Observation has
    no error, the online flag the metadata gives, and no readings. *)
Theorem success_without_telemetry (deviceId : string)
    (deviceName : option string) (w w1 w2 : World)
    (deviceInfo : option Result) (resp : Response) (d : Envelope) :
  getDeviceInfo deviceId w = (Returned deviceInfo, w1) ->
  makeTuyaRequest (status_path deviceId) "GET" [] empty_object 0 w1
  = (Returned resp, w2) ->
  data resp = Some d ->
  success d = true ->
  (forall items, result d <> StatusResult items) ->
  exists obs,
    checkDeviceAvailability deviceId deviceName w = (Returned obs, w2)
    /\ error obs = None
    /\ powerConsumptionW obs = None
    /\ voltageV obs = None
    /\ (isOnline obs = false <-> get_online deviceInfo = Some false).
Proof.
  intros G S D K R.
  rewrite (check_success deviceId deviceName w w1 w2 deviceInfo resp d G S D K).
  eexists. split; [reflexivity |]. simpl.
  assert (E : statusMap_of (result d) = empty_map).
  { destruct (result d) as [| | |items]; try reflexivity.
    exfalso. exact (R items eq_refl). }
  rewrite E. split; [reflexivity |]. split; [reflexivity |].
  split; [reflexivity |].
  destruct deviceInfo as [r|]; simpl.
  - destruct r as [| |[[|]|]|]; simpl; split; congruence.
  - split; congruence.
Qed.

(** ** Poll cycle: what is stored *)



(** X14: [GET /monitor] probes every configured device and returns the
    Observations themselves, with [voltageV] and [error]; it never answers
    with the error reply, and it writes nothing: the database has received
    no call and the table is as it was. *)
Theorem manual_check_does_not_persist (w : World) :
  exists obs w',
    get_monitor w = (Returned (ManualResults (Z.of_N (now w')) obs), w')
    /\ all probe getDevices w = (Returned obs, w')
    /\ map deviceId obs = map snd DEVICE_IDS
    /\ db_calls w' = db_calls w
    /\ power_status w' = power_status w.
Proof.
  destruct (all_probe_returns getDevices w) as [obs [w' [A [I _]]]].
  pose proof (blind_frame (all probe getDevices) w
                (blind_all_probe getDevices)) as F.
  rewrite A in F. cbn [snd] in F.
  exists obs, w'. split; [| split; [exact A | split; [| split]]].
  - unfold get_monitor, try_catch, bind. cbv zeta.
    change (all (fun device : Device =>
                   checkDeviceAvailability (id device) (Some (name device)))
              getDevices w)
      with (all probe getDevices w).
    rewrite A. reflexivity.
  - rewrite I. unfold getDevices. rewrite map_map. reflexivity.
  - rewrite F. reflexivity.
  - rewrite F. reflexivity.
Qed.


(** ** The first version of the prober *)

Lemma legacy_getAccessToken_cached (w : World) :
  Js.truthy_str (accessToken w) = true ->
  legacy_getAccessToken w = (Returned (accessToken w), w).
Proof.
  intros T. unfold legacy_getAccessToken. rewrite T. reflexivity.
Qed.

(** The first version with a cached token and a provider that resolves
    the status request. *)
Lemma legacy_check_resolved (dId : string) (dName : option string)
    (w : World) (resp : Response) :
  Js.truthy_str (accessToken w) = true ->
  reply (network w (List.length (sent w))) = inr resp ->
  let req := data_request (status_path dId) "GET" [] empty_object
               (accessToken w) w in
  let w' := exchange req w in
  let offline (m : string) :=
    {| isOnline := false; responseTimeMs := None;
       powerConsumptionW := None; voltageV := None;
       error := Some m; deviceId := dId; deviceName := dName |} in
  legacy_checkDeviceAvailability dId dName w =
  (Returned
     match data resp with
     | Some d =>
         if success d then
           match result d with
           | StatusResult items =>
               {| isOnline := true;
                  responseTimeMs := Some (Z.of_N (now w') - Z.of_N (now w));
                  powerConsumptionW :=
                    tenth (Js.or_num (last_value "cur_power" items) None);
                  voltageV := None; error := None;
                  deviceId := dId; deviceName := dName |}
           | NoResult => offline TypeError_reduce_undefined
           | _ => offline TypeError_reduce_not_function
           end
         else offline (Js.or_lit (msg d) "Unknown API error")
     | None => offline "Unknown API error"
     end,
   w').
Proof.
  intros T R. cbv zeta.
  unfold legacy_checkDeviceAvailability, data_request, status_path.
  unfold bind at 1. unfold Date_now at 1, gets at 1.
  unfold try_catch. unfold bind at 1.
  rewrite (legacy_getAccessToken_cached w T).
  unfold bind at 1. unfold gets at 1.
  destruct (signRequest _ "GET" [] empty_object (accessToken w) w)
    as [t sign].
  unfold bind at 1. unfold axios. rewrite R.
  unfold bind, Date_now, gets, ret, throw. cbn [fst snd].
  destruct (data resp) as [d|]; [| reflexivity].
  destruct (success d); [| reflexivity].
  destruct (result d) as [| | |items]; try reflexivity.
  rewrite fold_assign_lookup.
  destruct (last_value "cur_power" items); reflexivity.
Qed.

(** X16: the first version has no way out of a rejected token. With a
    cached token, at any time, a probe sends the status request with that
    token and nothing else; when the provider answers with an error
    envelope (a rejected token, say) the device is reported offline with
    the provider's message, and the token stays in the cache, so that the
    next probe meets the same conditions. *)
Theorem legacy_never_refreshes (deviceId : string)
    (deviceName : option string) (w : World) (resp : Response)
    (d : Envelope) :
  Js.truthy_str (accessToken w) = true ->
  reply (network w (List.length (sent w))) = inr resp ->
  data resp = Some d ->
  success d = false ->
  let r := legacy_checkDeviceAvailability deviceId deviceName w in
  exists obs req,
    fst r = Returned obs
    /\ isOnline obs = false
    /\ error obs = Some (Js.or_lit (msg d) "Unknown API error")
    /\ sent (snd r) = req :: sent w
    /\ req_access_token req = accessToken w
    /\ accessToken (snd r) = accessToken w
    /\ Js.truthy_str (accessToken (snd r)) = true.
Proof.
  intros T R D S. cbv zeta.
  pose proof (legacy_check_resolved deviceId deviceName w resp T R) as E.
  cbv zeta in E. rewrite E, D, S. cbn [fst snd].
  eexists. eexists. split; [reflexivity |].
  cbn [isOnline error sent exchange accessToken req_access_token
         data_request].
  repeat split. exact T.
Qed.

(** X17: in the first version a success envelope whose [result] is not a
    list makes [reduce] throw, and the device is reported offline with the
    TypeError as its error; no response time is reported. *)
Theorem legacy_needs_a_list (deviceId : string) (deviceName : option string)
    (w : World) (resp : Response) (d : Envelope) :
  Js.truthy_str (accessToken w) = true ->
  reply (network w (List.length (sent w))) = inr resp ->
  data resp = Some d ->
  success d = true ->
  (forall items, result d <> StatusResult items) ->
  exists obs m,
    fst (legacy_checkDeviceAvailability deviceId deviceName w) = Returned obs
    /\ isOnline obs = false
    /\ responseTimeMs obs = None
    /\ error obs = Some m
    /\ (m = TypeError_reduce_undefined \/ m = TypeError_reduce_not_function).
Proof.
  intros T R D S N.
  pose proof (legacy_check_resolved deviceId deviceName w resp T R) as E.
  cbv zeta in E. rewrite E, D, S. cbn [fst].
  destruct (result d) as [| | |items] eqn:Rd;
    try (exfalso; exact (N items eq_refl));
    eexists; eexists;
    (split; [reflexivity |]); cbn [isOnline responseTimeMs error];
    repeat split; auto.
Qed.

(** X18: the first version keeps its token for ever: once a non-empty
    token is cached, [getAccessToken()] returns it at every later time
    without a request, also long after the two hours the provider grants;
    the current version, in the same cache state, fetches a new token
    once the expiry time has passed. *)
Theorem legacy_token_never_expires (w : World) (expiry : Z) (dt : N) :
  Js.truthy_str (accessToken w) = true ->
  tokenExpiryTime w = Some expiry ->
  expiry <= Z.of_N (now w) + Z.of_N dt ->
  legacy_getAccessToken (advance dt w)
  = (Returned (accessToken w), advance dt w)
  /\ sent (snd (getAccessToken false (advance dt w)))
     = token_request (set_accessToken None (advance dt w)) :: sent w.
Proof.
  intros T E L. split.
  - apply (legacy_getAccessToken_cached (advance dt w)). exact T.
  - rewrite getAccessToken_eq.
    assert (H : cache_hit false (advance dt w) = false).
    { unfold cache_hit. cbn [accessToken tokenExpiryTime now advance].
      rewrite T, E. simpl. apply andb_false_iff. right.
      apply Z.ltb_ge. lia. }
    rewrite H. unfold before_fetch. cbn [accessToken advance].
    rewrite T. simpl andb. cbv iota. rewrite fetchToken_sent. reflexivity.
Qed.

End Tuya.

Arguments Returned {A} a.
Arguments Thrown {A} e.
Arguments accessToken {Body} w.
Arguments tokenExpiryTime {Body} w.
Arguments now {Body} w.
Arguments sent {Body} w.
Arguments power_status {Body} w.
Arguments req_access_token {Body} r.
Arguments req_url {Body} r.
Arguments advance {Body} dt w.
Arguments start {Body} net db.

(** * Scenarios *)

(** The development instantiated: a client, the two default devices, the
    stand-in digests, and requests without a body. *)
Definition CLIENT : string := "p9xk3client".
Definition SECRET : string := "s3cr3t".
Definition URL : string := "https://openapi.tuyaeu.com".

Definition DEVICES : list (string * string) :=
  [("Розетка 1", "bf3c70a960958bcf11ruml");
   ("Розетка 2", "bfcbd371e1af7827f9sj79")].

Definition no_body (_ : unit) : string := "{}".

Definition run_getAccessToken : bool -> M unit (option string) :=
  getAccessToken CLIENT SECRET URL plain_digest plain_mac unit no_body tt.

Definition run_makeTuyaRequest (path : string) : M unit Response :=
  makeTuyaRequest CLIENT SECRET URL plain_digest plain_mac unit no_body tt
    path "GET" [] tt 0.

Definition run_getDeviceInfo : string -> M unit (option Result) :=
  getDeviceInfo CLIENT SECRET URL plain_digest plain_mac unit no_body tt.

Definition run_check : string -> option string -> M unit Observation :=
  checkDeviceAvailability CLIENT SECRET URL plain_digest plain_mac unit
    no_body tt.

Definition run_post_monitor : M unit Reply :=
  post_monitor CLIENT SECRET URL DEVICES plain_digest plain_mac unit
    no_body tt.

(** A grant of two hours. *)
Definition world_grant : World unit :=
  start (script [grants "tok1" 7200]) db_up.

(** A grant that reports a lifetime of zero, and one with an empty token. *)
Definition world_grant_zero : World unit :=
  start (script [grants "tok1" 0]) db_up.

Definition world_grant_empty : World unit :=
  start (script [grants "" 7200]) db_up.

(** The token is rejected on the first request and on the retry. *)
Definition world_rejected_twice : World unit :=
  start (script [grants "tok1" 7200; token_invalid;
                 grants "tok2" 7200; token_invalid]) db_up.

(** The token is rejected once; the retry succeeds. *)
Definition world_rejected_once : World unit :=
  start (script [grants "tok1" 7200; token_invalid;
                 grants "tok2" 7200; telemetry [("cur_power", 235)]]) db_up.

(** A device whose metadata and telemetry are given. *)
Definition world_device (online : bool) (items : list (string * Z))
  : World unit :=
  start (script [grants "tok1" 7200; metadata online; telemetry items]) db_up.

(** Two devices: the first answers with [cur_power = 235], the calls of
    the second time out. *)
Definition world_two_devices (db : nat -> string + Z) : World unit :=
  start (script [grants "tok1" 7200; metadata true;
                 telemetry [("cur_power", 235)];
                 times_out 10000; times_out 15000]) db.

(** ** Token cache *)

(** A token of lifetime 7200 s is served from the cache up to 6899.999 s
    after the fetch and fetched again from 6900 s on. *)
Lemma token_cache_window_7200 :
  let w1 := snd (run_getAccessToken false world_grant) in
  "tok1" <> ""
  /\ 7200 <> 0
  /\ fst (run_getAccessToken false world_grant) = Returned (Some "tok1")
  /\ run_getAccessToken false (advance 0 w1)
     = (Returned (Some "tok1"), advance 0 w1)
  /\ run_getAccessToken false (advance 6899999 w1)
     = (Returned (Some "tok1"), advance 6899999 w1)
  /\ List.length (sent (snd (run_getAccessToken false (advance 6900000 w1))))
     = 2%nat.
Proof.
  cbv zeta.
  assert (H1 : "tok1" <> "") by discriminate.
  assert (H2 : 7200 <> 0) by lia.
  pose proof (token_cache_window CLIENT SECRET URL plain_digest plain_mac
                unit no_body tt world_grant
                {| status := 200;
                   data := Some (ok_envelope
                                   (TokenResult (Some "tok1") (Some 7200))) |}
                (ok_envelope (TokenResult (Some "tok1") (Some 7200)))
                "tok1" 7200
                eq_refl eq_refl eq_refl eq_refl eq_refl H1 H2) as T.
  cbv zeta in T. destruct T as [T1 [T2 T3]].
  split; [exact H1 |]. split; [exact H2 |]. split; [exact T1 |].
  split; [| split].
  - apply (proj1 (T3 0%N)). lia.
  - apply (proj1 (T3 6899999%N)). lia.
  - unfold run_getAccessToken.
    rewrite (proj2 (T3 6900000%N)) by lia.
    rewrite T2. reflexivity.
Defined.

(** C3 fails as stated: with a reported lifetime of 0 the cached token is
    still returned, without a fetch, at a time past [0 - 300] seconds (the
    code takes 7200 for a lifetime of 0); and an empty token is never
    served from the cache, so a fetch happens inside the window. *)
Lemma token_cache_zero_lifetime_empty_token :
  ((0 - 300) * 1000 <= Z.of_N 0
   /\ fst (run_getAccessToken false world_grant_zero) = Returned (Some "tok1")
   /\ run_getAccessToken false
        (advance 0 (snd (run_getAccessToken false world_grant_zero)))
      = (Returned (Some "tok1"),
         advance 0 (snd (run_getAccessToken false world_grant_zero))))
  /\ (Z.of_N 0 < (7200 - 300) * 1000
      /\ fst (run_getAccessToken false world_grant_empty) = Returned (Some "")
      /\ List.length
           (sent (snd (run_getAccessToken false world_grant_empty))) = 1%nat
      /\ List.length
           (sent (snd (run_getAccessToken false
                         (advance 0
                            (snd (run_getAccessToken false
                                    world_grant_empty)))))) = 2%nat).
Proof.
  split.
  - split; [lia |]. split; vm_compute; reflexivity.
  - split; [lia |]. repeat split; vm_compute; reflexivity.
Qed.

(** ** Requests with one retry *)

(** Rejected on the first request and on the retry: two requests with two
    different tokens, two token fetches, and the second rejection is the
    result. *)
Lemma auth_rejection_retried_once_twice_rejected :
  supported "GET" = true
  /\ auth_rejection (script [grants "tok1" 7200; token_invalid] 1) = true
  /\ fst (run_makeTuyaRequest "/v1.0/devices/d1/status" world_rejected_twice)
     = Returned {| status := 200;
                   data := Some (error_envelope 1010 "token invalid") |}
  /\ map req_access_token
       (sent (snd (run_makeTuyaRequest "/v1.0/devices/d1/status"
                     world_rejected_twice)))
     = [Some "tok2"; None; Some "tok1"; None].
Proof.
  split; [reflexivity |]. split; [reflexivity |].
  pose proof (auth_rejection_retried_once CLIENT SECRET URL plain_digest
                plain_mac unit no_body tt
                "/v1.0/devices/d1/status" "GET" [] tt
                world_rejected_twice
                (snd (run_getAccessToken false world_rejected_twice))
                (Some "tok1")
                eq_refl eq_refl eq_refl) as T.
  cbv zeta in T. destruct T as [_ [_ [_ [_ [_ T]]]]].
  match type of T with
  | forall (t : _) (w3 : _), ?g = _ -> _ =>
      specialize (T (Some "tok2") (snd g) eq_refl)
  end.
  cbv zeta in T. destruct T as [E [S _]].
  unfold run_makeTuyaRequest. rewrite E. cbn [fst snd]. rewrite S.
  split; reflexivity.
Defined.

(** ** Device prober *)

(** The metadata of the device says [online = false] and its status call
    succeeds with [cur_power = 235] and [cur_voltage = 2301]. *)
Definition world_offline_with_telemetry : World unit :=
  world_device false [("cur_power", 235); ("cur_voltage", 2301)].

(** C1 fails as stated: the status call succeeds, the metadata reports
    [online = false], and the Observation has [isOnline = false] together
    with the power and voltage scaled from the telemetry of that same
    response. *)
Lemma offline_observation_keeps_telemetry :
  fst (run_check "d1" (Some "Plug") world_offline_with_telemetry)
  = Returned {| isOnline := false;
                responseTimeMs := Some 295;
                powerConsumptionW := Some 23.5%Q;
                voltageV := Some 230.1%Q;
                error := None;
                deviceId := "d1";
                deviceName := Some "Plug" |}.
Proof. vm_compute. reflexivity. Qed.


(** A device that reports [cur_power = 235] and [cur_voltage = 2301]. *)
Definition world_online_235 : World unit :=
  world_device true [("cur_power", 235); ("cur_voltage", 2301)].

(** [cur_power = 235] gives 23.5 W, and [cur_voltage = 2301] gives
    230.1 V. *)
Lemma telemetry_scaled_by_ten_235 :
  exists obs,
    fst (run_check "d1" (Some "Plug") world_online_235) = Returned obs
    /\ In ("cur_power", 235) [("cur_power", 235); ("cur_voltage", 2301)]
    /\ 235 <> 0
    /\ powerConsumptionW obs = Some (inject_Z 235 / 10)%Q
    /\ (inject_Z 235 / 10 == 23.5)%Q
    /\ voltageV obs = Some (inject_Z 2301 / 10)%Q.
Proof.
  pose proof (telemetry_scaled_by_ten CLIENT SECRET URL plain_digest
                plain_mac unit no_body tt "d1" (Some "Plug")
                world_online_235
                (snd (run_getDeviceInfo "d1" world_online_235))
                (snd (run_check "d1" (Some "Plug") world_online_235))
                (Some (DeviceResult (Some true) None))
                {| status := 200;
                   data := Some (ok_envelope
                                   (StatusResult [("cur_power", 235);
                                                  ("cur_voltage", 2301)])) |}
                (ok_envelope (StatusResult [("cur_power", 235);
                                            ("cur_voltage", 2301)]))
                [("cur_power", 235); ("cur_voltage", 2301)]) as T.
  destruct T as [obs [E [P V]]]; try (vm_compute; reflexivity).
  exists obs. unfold run_check. rewrite E.
  split; [reflexivity |]. split; [simpl; auto |]. split; [lia |].
  split; [| split].
  - apply P; [simpl; auto | | lia].
    intros v' [H|[H|[]]]; inversion H; reflexivity.
  - reflexivity.
  - apply V; [simpl; auto | | lia].
    intros u' [H|[H|[]]]; inversion H; reflexivity.
Defined.

(** C5 fails as stated: a pair [cur_power = 0] gives no reading at all,
    not 0 W; and of two pairs with the code [cur_power] the last one wins,
    so the list holds the pair [cur_power = 235] while the reading is
    10 W. *)
Lemma scaling_fails_on_zero_and_on_duplicates :
  (In ("cur_power", 0) [("cur_power", 0)]
   /\ fst (run_check "d1" (Some "Plug")
             (world_device true [("cur_power", 0)]))
      = Returned {| isOnline := true;
                    responseTimeMs := Some 295;
                    powerConsumptionW := None;
                    voltageV := None;
                    error := None;
                    deviceId := "d1";
                    deviceName := Some "Plug" |})
  /\ (In ("cur_power", 235) [("cur_power", 235); ("cur_power", 100)]
      /\ fst (run_check "d1" (Some "Plug")
                (world_device true [("cur_power", 235); ("cur_power", 100)]))
         = Returned {| isOnline := true;
                       responseTimeMs := Some 295;
                       powerConsumptionW := Some 10.0%Q;
                       voltageV := None;
                       error := None;
                       deviceId := "d1";
                       deviceName := Some "Plug" |}).
Proof.
  split; (split; [simpl; auto | vm_compute; reflexivity]).
Qed.

(** A device that reports zero watts and zero volts. *)
Definition world_zero_reading : World unit :=
  world_device true [("cur_power", 0); ("cur_voltage", 0); ("switch_1", 1)].

(** Zero watts and zero volts are reported as absent readings. *)
Lemma zero_reading_is_null_zero_watt :
  exists obs,
    fst (run_check "d1" (Some "Plug") world_zero_reading) = Returned obs
    /\ In ("cur_power", 0)
         [("cur_power", 0); ("cur_voltage", 0); ("switch_1", 1)]
    /\ powerConsumptionW obs = None
    /\ voltageV obs = None.
Proof.
  pose proof (zero_reading_is_null CLIENT SECRET URL plain_digest
                plain_mac unit no_body tt "d1" (Some "Plug")
                world_zero_reading
                (snd (run_getDeviceInfo "d1" world_zero_reading))
                (snd (run_check "d1" (Some "Plug") world_zero_reading))
                (Some (DeviceResult (Some true) None))
                {| status := 200;
                   data := Some (ok_envelope
                                   (StatusResult [("cur_power", 0);
                                                  ("cur_voltage", 0);
                                                  ("switch_1", 1)])) |}
                (ok_envelope (StatusResult [("cur_power", 0);
                                            ("cur_voltage", 0);
                                            ("switch_1", 1)]))
                [("cur_power", 0); ("cur_voltage", 0); ("switch_1", 1)]) as T.
  destruct T as [obs [E [P V]]]; try (vm_compute; reflexivity).
  exists obs. unfold run_check. rewrite E.
  split; [reflexivity |]. split; [simpl; auto |]. split.
  - apply P.
    + simpl; auto.
    + intros v [H|[H|[H|[]]]]; inversion H; reflexivity.
    + intros v [H|[H|[H|[]]]]; inversion H.
    + intros v [H|[H|[H|[]]]]; inversion H.
  - apply V.
    + simpl; auto.
    + intros v [H|[H|[H|[]]]]; inversion H; reflexivity.
Defined.

(** ** Signer *)


(** ** Poll cycle *)

(** The scenario of the specification: one device answers with
    [cur_power = 235], the other times out; the summary is
    [{devicesChecked: 2, online: 1, offline: 1}], and it is the same when
    the database rejects every write. *)
Example poll_cycle_two_devices :
  fst (run_post_monitor (world_two_devices db_up))
  = Returned
      (Summary 1700000025295 2 1 1
         [{| v_deviceId := "bf3c70a960958bcf11ruml";
             v_deviceName := Some "Розетка 1";
             v_isOnline := true;
             v_responseTimeMs := Some 295;
             v_powerConsumptionW := Some 23.5%Q |};
          {| v_deviceId := "bfcbd371e1af7827f9sj79";
             v_deviceName := Some "Розетка 2";
             v_isOnline := false;
             v_responseTimeMs := None;
             v_powerConsumptionW := None |}])
  /\ fst (run_post_monitor (world_two_devices db_down))
     = fst (run_post_monitor (world_two_devices db_up))
  /\ map row_error_message
       (power_status (snd (run_post_monitor (world_two_devices db_up))))
     = [Some "Timeout"; None]
  /\ power_status (snd (run_post_monitor (world_two_devices db_down))) = [].
Proof.
  repeat split; vm_compute; reflexivity.
Qed.

(** The scenario of the rejected token: the retry with the new token
    succeeds after exactly two status requests and two token fetches. *)
Example rejected_once_then_success :
  fst (run_makeTuyaRequest "/v1.0/devices/d1/status" world_rejected_once)
  = Returned {| status := 200;
                data := Some (ok_envelope
                                (StatusResult [("cur_power", 235)])) |}
  /\ map req_access_token
       (sent (snd (run_makeTuyaRequest "/v1.0/devices/d1/status"
                     world_rejected_once)))
     = [Some "tok2"; None; Some "tok1"; None].
Proof.
  split; vm_compute; reflexivity.
Qed.

(** The row stored for the offline device of the first scenario has no
    power reading. *)
Example offline_row_has_no_power :
  map row_power_consumption_w
    (power_status
       (snd (check_device CLIENT SECRET URL plain_digest plain_mac unit
               no_body tt {| id := "d1"; name := "Plug" |}
               world_offline_with_telemetry)))
  = [None].
Proof. vm_compute. reflexivity. Qed.

(** * Scenarios of the further properties *)

Arguments network {Body} w.
Arguments exchange {Body} r w.

Definition run_legacy_getAccessToken : M unit (option string) :=
  legacy_getAccessToken CLIENT SECRET URL plain_digest plain_mac unit
    no_body tt.

Definition run_legacy_check : string -> option string -> M unit Observation :=
  legacy_checkDeviceAvailability CLIENT SECRET URL plain_digest plain_mac
    unit no_body tt.

(** A provider that never answers. *)
Definition world_silent : World unit := start (script []) db_up.

(** The provider limits the rate of the first request. *)
Definition world_rate_limited : World unit :=
  start (script [grants "tok1" 7200;
                 resolves 40 (error_envelope 429 "too many requests")]) db_up.

(** The metadata arrives, the status request times out. *)
Definition world_status_timeout : World unit :=
  start (script [grants "tok1" 7200; metadata true; times_out 15000]) db_up.

(** The status call succeeds without a [result]. *)
Definition world_no_result : World unit :=
  start (script [grants "tok1" 7200; metadata true;
                 resolves 95 (ok_envelope NoResult)]) db_up.

(** A token in the cache, with the expiry time given, and a provider that
    follows the script. *)
Definition world_cached (expiry : option Z) (answers : list Answer)
  : World unit :=
  set_tokenExpiryTime unit expiry
    (set_accessToken unit (Some "tok1") (start (script answers) db_up)).

(** The signature of a request with two query entries, given in both
    orders. *)
Lemma signRequest_query_order_two_entries :
  Permutation [("b", "2"); ("a", "1")] [("a", "1"); ("b", "2")]
  /\ NoDup (map Js.entry_key [("b", "2"); ("a", "1")])
  /\ signRequest CLIENT SECRET plain_digest plain_mac unit no_body
       "/v1.0/devices" "GET" [("b", "2"); ("a", "1")] tt (Some "tok1")
       world_silent
     = signRequest CLIENT SECRET plain_digest plain_mac unit no_body
         "/v1.0/devices" "GET" [("a", "1"); ("b", "2")] tt (Some "tok1")
         world_silent.
Proof.
  assert (P : Permutation [("b", "2"); ("a", "1")] [("a", "1"); ("b", "2")])
    by apply perm_swap.
  assert (N : NoDup (map Js.entry_key [("b", "2"); ("a", "1")])).
  { simpl. constructor.
    - simpl. intros [H|[]]. discriminate.
    - constructor; [simpl; tauto | constructor]. }
  split; [exact P |]. split; [exact N |].
  exact (signRequest_query_order CLIENT SECRET plain_digest plain_mac unit
           no_body "/v1.0/devices" "GET" _ _ tt (Some "tok1") world_silent
           P N).
Defined.

(** The token request times out: the cache is empty and the error has the
    prefix. *)
Lemma getAccessToken_failure_timeout :
  run_getAccessToken false world_silent
  = (Thrown (new_Error (token_error_prefix ++ "timeout of 15000ms exceeded")),
     snd (run_getAccessToken false world_silent))
  /\ accessToken (snd (run_getAccessToken false world_silent)) = None
  /\ List.length (sent (snd (run_getAccessToken false world_silent))) = 1%nat.
Proof.
  assert (H : run_getAccessToken false world_silent
              = (Thrown (new_Error (token_error_prefix
                                    ++ "timeout of 15000ms exceeded")),
                 snd (run_getAccessToken false world_silent)))
    by (vm_compute; reflexivity).
  pose proof (getAccessToken_failure CLIENT SECRET URL plain_digest plain_mac
                unit no_body tt false world_silent _ _ H) as T.
  destruct T as [T1 [_ [T3 _]]].
  split; [exact H |]. split; [exact T1 |]. rewrite T3. reflexivity.
Defined.

(** A DELETE request is refused after the token fetch. *)
Lemma unsupported_method_delete :
  supported "DELETE" = false
  /\ fst (makeTuyaRequest CLIENT SECRET URL plain_digest plain_mac unit
            no_body tt "/v1.0/devices/d1" "DELETE" [] tt 0 world_grant)
     = Thrown (new_Error "Unsupported method: DELETE")
  /\ List.length
       (sent (snd (makeTuyaRequest CLIENT SECRET URL plain_digest plain_mac
                     unit no_body tt "/v1.0/devices/d1" "DELETE" [] tt 0
                     world_grant))) = 1%nat.
Proof.
  pose proof (unsupported_method_sends_nothing CLIENT SECRET URL plain_digest
                plain_mac unit no_body tt "/v1.0/devices/d1" "DELETE" [] tt
                world_grant eq_refl) as T.
  cbv zeta in T. destruct T as [T1 [T2 _]].
  split; [reflexivity |]. split.
  - apply (T2 (Some "tok1") (snd (run_getAccessToken false world_grant))).
    vm_compute. reflexivity.
  - rewrite T1. vm_compute. reflexivity.
Defined.

(** A rate-limited request is not repeated. *)
Lemma rate_limit_is_terminal_429 :
  supported "GET" = true
  /\ fst (run_makeTuyaRequest "/v1.0/devices/d1/status" world_rate_limited)
     = Thrown (new_Error "Rate limit exceeded")
  /\ List.length
       (sent (snd (run_makeTuyaRequest "/v1.0/devices/d1/status"
                     world_rate_limited))) = 2%nat
  /\ accessToken (snd (run_makeTuyaRequest "/v1.0/devices/d1/status"
                         world_rate_limited)) = Some "tok1".
Proof.
  pose proof (rate_limit_is_terminal CLIENT SECRET URL plain_digest plain_mac
                unit no_body tt "/v1.0/devices/d1/status" "GET" [] tt
                world_rate_limited
                (snd (run_getAccessToken false world_rate_limited))
                (Some "tok1")
                {| status := 200;
                   data := Some (error_envelope 429 "too many requests") |}
                eq_refl eq_refl eq_refl eq_refl) as T.
  cbv zeta in T. destruct T as [T1 [T2 [T3 _]]].
  split; [reflexivity |]. unfold run_makeTuyaRequest.
  split; [exact T1 |]. split.
  - rewrite T2. reflexivity.
  - rewrite T3. reflexivity.
Defined.

(** The status request times out: the device is offline with the error
    [Timeout]. *)
Lemma network_failure_classified_timeout :
  exists obs,
    fst (run_check "d1" (Some "Plug") world_status_timeout) = Returned obs
    /\ isOnline obs = false
    /\ error obs = Some "Timeout".
Proof.
  pose proof (network_failure_classified CLIENT SECRET URL plain_digest
                plain_mac unit no_body tt "d1" (Some "Plug")
                world_status_timeout
                (snd (run_getDeviceInfo "d1" world_status_timeout))
                (snd (run_getDeviceInfo "d1" world_status_timeout))
                (Some (DeviceResult (Some true) None))
                (Some "tok1")
                {| message := "timeout of 15000ms exceeded";
                   err_code := Some "ECONNABORTED";
                   response := None |}) as T.
  destruct T as [obs [w2 [E [O [_ [_ [C _]]]]]]];
    try (vm_compute; reflexivity).
  exists obs. unfold run_check. rewrite E.
  split; [reflexivity |]. split; [exact O | apply C; reflexivity].
Defined.

(** The provider never answers: two token requests, and the error of the
    second with the prefix. *)
Lemma token_failure_reported_with_prefix_silent :
  exists obs,
    fst (run_check "d1" (Some "Plug") world_silent) = Returned obs
    /\ error obs
       = Some (token_error_prefix ++ "timeout of 15000ms exceeded")
    /\ List.length (sent (snd (run_check "d1" (Some "Plug") world_silent)))
       = 2%nat.
Proof.
  pose proof (token_failure_reported_with_prefix CLIENT SECRET URL
                plain_digest plain_mac unit no_body tt "d1" (Some "Plug")
                world_silent
                {| message := "timeout of 15000ms exceeded";
                   err_code := Some "ECONNABORTED";
                   response := None |}
                {| message := "timeout of 15000ms exceeded";
                   err_code := Some "ECONNABORTED";
                   response := None |}
                eq_refl eq_refl eq_refl) as T.
  destruct T as [obs [w2 [r1 [r2 [E [_ [Er [S _]]]]]]]].
  exists obs. unfold run_check. rewrite E. cbn [fst snd].
  split; [reflexivity |]. split; [exact Er |]. rewrite S. reflexivity.
Defined.

(** A probe with a valid token in the cache: two requests, both with that
    token. *)
Lemma valid_token_is_shared_two_requests :
  Js.truthy_str (Some "tok1") = true
  /\ 1700000000000 + 80 < 1700006900000
  /\ map req_access_token
       (sent (snd (run_check "d1" (Some "Plug")
                     (world_cached (Some 1700006900000)
                        [metadata true; telemetry [("cur_power", 235)]]))))
     = [Some "tok1"; Some "tok1"].
Proof.
  pose proof (valid_token_is_shared CLIENT SECRET URL plain_digest plain_mac
                unit no_body tt "d1" (Some "Plug")
                (world_cached (Some 1700006900000)
                   [metadata true; telemetry [("cur_power", 235)]])
                1700006900000
                eq_refl eq_refl eq_refl eq_refl eq_refl) as T.
  cbv zeta in T. destruct T as [T1 [T2 [T3 _]]].
  split; [reflexivity |]. split; [reflexivity |].
  unfold run_check. rewrite T1. cbn [map]. rewrite T2, T3. reflexivity.
Defined.

(** The Observation of a device that answers. *)
Lemma observation_shape_online :
  fst (run_check "d1" (Some "Plug") world_online_235)
  = Returned {| isOnline := true;
                responseTimeMs := Some 295;
                powerConsumptionW := Some 23.5%Q;
                voltageV := Some 230.1%Q;
                error := None;
                deviceId := "d1";
                deviceName := Some "Plug" |}
  /\ Some (Z.of_N (now (snd (run_check "d1" (Some "Plug") world_online_235)))
           - Z.of_N (now world_online_235)) = Some 295.
Proof.
  assert (H : run_check "d1" (Some "Plug") world_online_235
              = (Returned {| isOnline := true;
                             responseTimeMs := Some 295;
                             powerConsumptionW := Some 23.5%Q;
                             voltageV := Some 230.1%Q;
                             error := None;
                             deviceId := "d1";
                             deviceName := Some "Plug" |},
                 snd (run_check "d1" (Some "Plug") world_online_235)))
    by (vm_compute; reflexivity).
  pose proof (observation_shape CLIENT SECRET URL plain_digest plain_mac
                unit no_body tt "d1" (Some "Plug") world_online_235 _ _ H)
    as T.
  destruct T as [_ [_ [T _]]].
  split; [rewrite H; reflexivity |].
  specialize (T eq_refl). cbn [responseTimeMs] in T.
  symmetry. exact T.
Defined.

(** [cur_power] is zero and [cur_power_1] is 120: the reading is 12 W. *)
Lemma power_code_fallback_second_code :
  exists obs,
    fst (run_check "d1" (Some "Plug")
           (world_device true [("cur_power", 0); ("cur_power_1", 120)]))
    = Returned obs
    /\ powerConsumptionW obs = Some (inject_Z 120 / 10)%Q.
Proof.
  pose proof (power_code_fallback CLIENT SECRET URL plain_digest plain_mac
                unit no_body tt "d1" (Some "Plug")
                (world_device true [("cur_power", 0); ("cur_power_1", 120)])
                (snd (run_getDeviceInfo "d1"
                        (world_device true
                           [("cur_power", 0); ("cur_power_1", 120)])))
                (snd (run_check "d1" (Some "Plug")
                        (world_device true
                           [("cur_power", 0); ("cur_power_1", 120)])))
                (Some (DeviceResult (Some true) None))
                {| status := 200;
                   data := Some (ok_envelope
                                   (StatusResult [("cur_power", 0);
                                                  ("cur_power_1", 120)])) |}
                (ok_envelope (StatusResult [("cur_power", 0);
                                            ("cur_power_1", 120)]))
                [("cur_power", 0); ("cur_power_1", 120)]) as T.
  destruct T as [obs [E [P _]]]; try (vm_compute; reflexivity).
  - intros v [H|[H|[]]]; inversion H; reflexivity.
  - exists obs. unfold run_check. rewrite E. split; [reflexivity |].
    apply P; [simpl; auto | | lia].
    intros v' [H|[H|[]]]; inversion H; reflexivity.
Defined.

(** A success envelope without a [result]: online, no readings. *)
Lemma success_without_telemetry_no_result :
  exists obs,
    fst (run_check "d1" (Some "Plug") world_no_result) = Returned obs
    /\ error obs = None
    /\ powerConsumptionW obs = None
    /\ voltageV obs = None.
Proof.
  pose proof (success_without_telemetry CLIENT SECRET URL plain_digest
                plain_mac unit no_body tt "d1" (Some "Plug") world_no_result
                (snd (run_getDeviceInfo "d1" world_no_result))
                (snd (run_check "d1" (Some "Plug") world_no_result))
                (Some (DeviceResult (Some true) None))
                {| status := 200; data := Some (ok_envelope NoResult) |}
                (ok_envelope NoResult)) as T.
  destruct T as [obs [E [Er [P [V _]]]]]; try (vm_compute; reflexivity).
  - intros items H. discriminate.
  - exists obs. unfold run_check. rewrite E. auto.
Defined.

(** The first version meets a rejected token: offline, and the token is
    still cached. *)
Lemma legacy_never_refreshes_rejected :
  exists obs,
    fst (run_legacy_check "d1" (Some "Plug")
           (world_cached None [token_invalid])) = Returned obs
    /\ error obs = Some "token invalid"
    /\ accessToken (snd (run_legacy_check "d1" (Some "Plug")
                           (world_cached None [token_invalid])))
       = Some "tok1".
Proof.
  pose proof (legacy_never_refreshes CLIENT SECRET URL plain_digest plain_mac
                unit no_body tt "d1" (Some "Plug")
                (world_cached None [token_invalid])
                {| status := 200;
                   data := Some (error_envelope 1010 "token invalid") |}
                (error_envelope 1010 "token invalid")
                eq_refl eq_refl eq_refl eq_refl) as T.
  cbv zeta in T. destruct T as [obs [req [E [_ [Er [_ [_ [A _]]]]]]]].
  exists obs. unfold run_legacy_check. rewrite E, A.
  split; [reflexivity |]. split; [exact Er | reflexivity].
Defined.

(** The first version meets a success envelope without a [result]. *)
Lemma legacy_needs_a_list_no_result :
  exists obs,
    fst (run_legacy_check "d1" (Some "Plug")
           (world_cached None [resolves 95 (ok_envelope NoResult)]))
    = Returned obs
    /\ isOnline obs = false
    /\ error obs <> None.
Proof.
  pose proof (legacy_needs_a_list CLIENT SECRET URL plain_digest plain_mac
                unit no_body tt "d1" (Some "Plug")
                (world_cached None [resolves 95 (ok_envelope NoResult)])
                {| status := 200; data := Some (ok_envelope NoResult) |}
                (ok_envelope NoResult)
                eq_refl eq_refl eq_refl eq_refl) as T.
  destruct T as [obs [m [E [O [_ [Er _]]]]]].
  - intros items H. discriminate.
  - exists obs. unfold run_legacy_check. rewrite E.
    split; [reflexivity |]. split; [exact O |]. rewrite Er. discriminate.
Defined.

(** A token whose expiry time has passed: the first version returns it,
    the current version fetches another. *)
Lemma legacy_token_never_expires_stale :
  1700000000000 <= Z.of_N 1700000000000 + Z.of_N 5
  /\ fst (run_legacy_getAccessToken
            (advance 5 (world_cached (Some 1700000000000) [])))
     = Returned (Some "tok1")
  /\ List.length
       (sent (snd (run_getAccessToken false
                     (advance 5 (world_cached (Some 1700000000000) [])))))
     = 1%nat.
Proof.
  assert (L : 1700000000000 <= Z.of_N 1700000000000 + Z.of_N 5) by lia.
  pose proof (legacy_token_never_expires CLIENT SECRET URL plain_digest
                plain_mac unit no_body tt
                (world_cached (Some 1700000000000) [])
                1700000000000 5%N eq_refl eq_refl L) as T.
  destruct T as [T1 T2].
  split; [exact L |]. split.
  - unfold run_legacy_getAccessToken. rewrite T1. reflexivity.
  - unfold run_getAccessToken. rewrite T2. reflexivity.
Defined.

(** The rows of the two-device cycle, newest first, and the manual check
    of the same devices, which stores nothing. *)
Example poll_cycle_rows_two_devices :
  map row_is_online
    (power_status (snd (run_post_monitor (world_two_devices db_up))))
  = [false; true]
  /\ power_status
       (snd (get_monitor CLIENT SECRET URL DEVICES plain_digest plain_mac
               unit no_body tt (world_two_devices db_up))) = [].
Proof. split; vm_compute; reflexivity. Qed.

(** * The database layer ([db.js]) *)

(** The connection pool, the statements and their parameters are modelled;
    the SQL texts are those of the source, character for character. What
    MySQL answers is given by the [driver] of the store: the outcome of
    the n-th statement. *)

Module Db.

(** A parameter bound to a placeholder. *)
Inductive Param :=
| PStr (s : string)
| PNum (n : Z)
| PNaN
| PRat (q : Q)
| PNull.

(** A JavaScript number that is an integer or [NaN]. *)
Inductive Number :=
| Int (z : Z)
| NaN.

(** A column value, a row, and what [pool.execute] resolves with: the
    rows of a SELECT or the header of an INSERT. *)
Inductive Value :=
| VNull
| VNum (z : Z)
| VStr (s : string).

Definition DbRow := list (string * Value).

Inductive DbResult :=
| Rows (rows : list DbRow)
| Header (insertId : option Z).

(** A statement as it reaches the driver. *)
Record Statement := {
  on_pool : nat;
  text : string;
  params : list Param }.

(** The module variable [pool], the pools created so far, the driver and
    the statements executed so far, most recent first. *)
Record Store := {
  pool : option nat;
  pools_created : nat;
  driver : nat -> Error + DbResult;
  executed : list Statement }.

Definition D (A : Type) : Type := Store -> Completion A * Store.

Definition ret {A} (a : A) : D A := fun s => (Returned a, s).

Definition throw {A} (e : Error) : D A := fun s => (Thrown e, s).

Definition bind {A B} (c : D A) (k : A -> D B) : D B :=
  fun s =>
    match c s with
    | (Returned a, s') => k a s'
    | (Thrown e, s') => (Thrown e, s')
    end.

Definition try_catch {A} (c : D A) (h : Error -> D A) : D A :=
  fun s =>
    match c s with
    | (Returned a, s') => (Returned a, s')
    | (Thrown e, s') => h e s'
    end.

Notation "x <- c ;; k" := (bind c (fun x => k))
  (at level 61, c at next level, right associativity).

(** [getPool()]: the pool is created on first use. *)
Definition getPool : D nat :=
  fun s =>
    match pool s with
    | Some p => (Returned p, s)
    | None =>
        (Returned (pools_created s),
         {| pool := Some (pools_created s);
            pools_created := S (pools_created s);
            driver := driver s;
            executed := executed s |})
    end.

(** [closePool()]. *)
Definition closePool : D unit :=
  fun s =>
    match pool s with
    | Some p =>
        (Returned tt,
         {| pool := None; pools_created := pools_created s;
            driver := driver s; executed := executed s |})
    | None => (Returned tt, s)
    end.

(** [const [first] = await pool.execute(query, params)]. *)
Definition execute (p : nat) (query : string) (ps : list Param) : D DbResult :=
  fun s =>
    let s' := {| pool := pool s; pools_created := pools_created s;
                 driver := driver s;
                 executed := {| on_pool := p; text := query; params := ps |}
                             :: executed s |} in
    match driver s (List.length (executed s)) with
    | inl e => (Thrown e, s')
    | inr r => (Returned r, s')
    end.

(** A possibly absent string as a parameter. *)
Definition param_of (x : option string) : Param :=
  match x with
  | Some s => PStr s
  | None => PNull
  end.

Definition param_of_number (n : Number) : Param :=
  match n with
  | Int z => PNum z
  | NaN => PNaN
  end.

(** [if (x) { query += clause; params.push(x); }]. *)
Definition push_if (x : option string) (clause : string)
    (qp : string * list Param) : string * list Param :=
  if Js.truthy_str x
  then (fst qp ++ clause, (snd qp ++ [param_of x])%list)
  else qp.

(** The statement of [savePowerStatus]. *)
Definition savePowerStatus_sql : string :=
  "
            INSERT INTO power_status 
            (timestamp, device_id, device_name, is_online, response_time_ms, power_consumption_w, error_message)
            VALUES (NOW(), ?, ?, ?, ?, ?, ?)
        ".

(** [savePowerStatus(deviceId, deviceName, isOnline, responseTimeMs = null,
    powerConsumptionW = null, errorMessage = null)]. *)
Definition savePowerStatus (deviceId : string) (deviceName : option string)
    (isOnline : bool) (responseTimeMs : option Z)
    (powerConsumptionW : option Q) (errorMessage : option string)
  : D (option Z) :=
  p <- getPool ;;
  try_catch
    (let query := savePowerStatus_sql in
     result <- execute p query
                 [PStr deviceId;
                  param_of deviceName;
                  PNum (if isOnline then 1 else 0);
                  match responseTimeMs with Some t => PNum t | None => PNull end;
                  match powerConsumptionW with
                  | Some q => PRat q
                  | None => PNull
                  end;
                  param_of errorMessage] ;;
     ret match result with
         | Header insertId => insertId
         | Rows _ => None
         end)
    (fun error => throw error).

(** The SELECT of [getStats]. *)
Definition getStats_select : string :=
  "
            SELECT 
                DATE(CONVERT_TZ(timestamp, '+00:00', '+02:00')) as date,
                device_id,
                device_name,
                COUNT(*) as total_checks,
                SUM(is_online) as minutes_online,
                COUNT(*) - SUM(is_online) as minutes_offline,
                AVG(CASE WHEN response_time_ms IS NOT NULL THEN response_time_ms END) as avg_response_time_ms,
                AVG(CASE WHEN is_online = 1 AND power_consumption_w IS NOT NULL THEN power_consumption_w END) as avg_power_w,
                SUM(CASE WHEN is_online = 1 AND power_consumption_w IS NOT NULL THEN power_consumption_w * (1.0 / 60.0) ELSE 0 END) as total_consumption_kwh
            FROM power_status
            WHERE 1=1
        ".

(** The statement [getStats] builds. *)
Definition getStats_statement (deviceId startDate endDate : option string)
  : string * list Param :=
  let qp := (getStats_select, []) in
  let qp := push_if deviceId " AND device_id = ?" qp in
  let qp := push_if startDate " AND DATE(CONVERT_TZ(timestamp, '+00:00', '+02:00')) >= ?" qp in
  let qp := push_if endDate " AND DATE(CONVERT_TZ(timestamp, '+00:00', '+02:00')) <= ?" qp in
  (fst qp ++ " GROUP BY DATE(CONVERT_TZ(timestamp, '+00:00', '+02:00')), device_id, device_name ORDER BY date DESC, device_id",
   snd qp).

(** [getStats(deviceId = null, startDate = null, endDate = null)]. *)
Definition getStats (deviceId startDate endDate : option string) : D DbResult :=
  p <- getPool ;;
  try_catch
    (let qp := getStats_statement deviceId startDate endDate in
     rows <- execute p (fst qp) (snd qp) ;;
     ret rows)
    (fun error => throw error).

(** The statement of [getDailyDetails]. *)
Definition getDailyDetails_sql : string :=
  "
            SELECT 
                DATE_FORMAT(CONVERT_TZ(timestamp, '+00:00', '+02:00'), '%Y-%m-%d %H:%i') as time,
                timestamp,
                is_online,
                response_time_ms,
                power_consumption_w,
                error_message
            FROM power_status
            WHERE device_id = ? AND DATE(CONVERT_TZ(timestamp, '+00:00', '+02:00')) = ?
            ORDER BY CONVERT_TZ(timestamp, '+00:00', '+02:00') ASC
        ".

(** [getDailyDetails(deviceId, date)]. *)
Definition getDailyDetails (deviceId date : option string) : D DbResult :=
  p <- getPool ;;
  try_catch
    (let query := getDailyDetails_sql in
     rows <- execute p query [param_of deviceId; param_of date] ;;
     ret rows)
    (fun error => throw error).

(** The two statements of [getDailyChart], around the optional device clause. *)
Definition getDailyChart_today_before : string :=
  "
                SELECT 
                    DATE(CONVERT_TZ(timestamp, '+00:00', '+02:00')) as date,
                    device_id,
                    device_name,
                    COUNT(*) as total_checks,
                    SUM(is_online) as minutes_online,
                    COUNT(*) - SUM(is_online) as minutes_offline,
                    ROUND((SUM(is_online) / COUNT(*)) * 100, 2) as availability_percent,
                    AVG(CASE WHEN is_online = 1 AND power_consumption_w IS NOT NULL THEN power_consumption_w END) as avg_power_w,
                    SUM(CASE WHEN is_online = 1 AND power_consumption_w IS NOT NULL THEN power_consumption_w * (1.0 / 60.0) ELSE 0 END) as total_consumption_kwh
                FROM power_status
                WHERE DATE(CONVERT_TZ(timestamp, '+00:00', '+02:00')) = CURDATE()
                ".

Definition getDailyChart_today_after : string :=
  "
                GROUP BY DATE(CONVERT_TZ(timestamp, '+00:00', '+02:00')), device_id, device_name
                ORDER BY date DESC, device_id
            ".

Definition getDailyChart_range_before : string :=
  "
                SELECT 
                    DATE(CONVERT_TZ(timestamp, '+00:00', '+02:00')) as date,
                    device_id,
                    device_name,
                    COUNT(*) as total_checks,
                    SUM(is_online) as minutes_online,
                    COUNT(*) - SUM(is_online) as minutes_offline,
                    ROUND((SUM(is_online) / COUNT(*)) * 100, 2) as availability_percent,
                    AVG(CASE WHEN is_online = 1 AND power_consumption_w IS NOT NULL THEN power_consumption_w END) as avg_power_w,
                    SUM(CASE WHEN is_online = 1 AND power_consumption_w IS NOT NULL THEN power_consumption_w * (1.0 / 60.0) ELSE 0 END) as total_consumption_kwh
                FROM power_status
                WHERE CONVERT_TZ(timestamp, '+00:00', '+02:00') >= DATE_SUB(CURDATE(), INTERVAL ? DAY)
                ".

Definition getDailyChart_range_after : string :=
  "
                GROUP BY DATE(CONVERT_TZ(timestamp, '+00:00', '+02:00')), device_id, device_name
                ORDER BY date DESC, device_id
            ".

(** The statement [getDailyChart] builds. *)
Definition getDailyChart_statement (deviceId : option string) (days : Number)
  : string * list Param :=
  let device_clause :=
    if Js.truthy_str deviceId then "AND device_id = ?" else "" in
  match days with
  | Int 0 =>
      (getDailyChart_today_before ++ device_clause
         ++ getDailyChart_today_after,
       if Js.truthy_str deviceId then [param_of deviceId] else [])
  | _ =>
      (getDailyChart_range_before ++ device_clause
         ++ getDailyChart_range_after,
       if Js.truthy_str deviceId
       then [param_of_number days; param_of deviceId]
       else [param_of_number days])
  end.

(** [getDailyChart(deviceId = null, days = 30)]. *)
Definition getDailyChart (deviceId : option string) (days : Number)
  : D DbResult :=
  p <- getPool ;;
  try_catch
    (let qp := getDailyChart_statement deviceId days in
     rows <- execute p (fst qp) (snd qp) ;;
     ret rows)
    (fun error => throw error).

(** The SELECT of [getOverallStats]. *)
Definition getOverallStats_select : string :=
  "
            SELECT 
                device_id,
                device_name,
                COUNT(*) as total_checks,
                SUM(is_online) as total_minutes_online,
                COUNT(*) - SUM(is_online) as total_minutes_offline,
                ROUND((SUM(is_online) / COUNT(*)) * 100, 2) as availability_percent,
                ROUND(SUM(is_online) / 60.0, 2) as hours_online,
                ROUND((COUNT(*) - SUM(is_online)) / 60.0, 2) as hours_offline,
                AVG(CASE WHEN response_time_ms IS NOT NULL THEN response_time_ms END) as avg_response_time_ms,
                AVG(CASE WHEN is_online = 1 AND power_consumption_w IS NOT NULL THEN power_consumption_w END) as avg_power_w,
                SUM(CASE WHEN is_online = 1 AND power_consumption_w IS NOT NULL THEN power_consumption_w * (1.0 / 60.0) ELSE 0 END) as total_consumption_kwh
            FROM power_status
            WHERE 1=1
        ".

(** The statement [getOverallStats] builds. *)
Definition getOverallStats_statement (deviceId startDate endDate : option string)
  : string * list Param :=
  let qp := (getOverallStats_select, []) in
  let qp := push_if deviceId " AND device_id = ?" qp in
  let qp := push_if startDate " AND DATE(CONVERT_TZ(timestamp, '+00:00', '+02:00')) >= ?" qp in
  let qp := push_if endDate " AND DATE(CONVERT_TZ(timestamp, '+00:00', '+02:00')) <= ?" qp in
  (fst qp ++ " GROUP BY device_id, device_name ORDER BY device_id",
   snd qp).

(** [getOverallStats(deviceId = null, startDate = null, endDate = null)]. *)
Definition getOverallStats (deviceId startDate endDate : option string) : D DbResult :=
  p <- getPool ;;
  try_catch
    (let qp := getOverallStats_statement deviceId startDate endDate in
     rows <- execute p (fst qp) (snd qp) ;;
     ret rows)
    (fun error => throw error).

(** The SELECT of [getDailyPowerConsumption]. *)
Definition getDailyPowerConsumption_select : string :=
  "
            SELECT 
                DATE(CONVERT_TZ(timestamp, '+00:00', '+02:00')) as date,
                device_id,
                device_name,
                COUNT(CASE WHEN power_consumption_w IS NOT NULL THEN 1 END) as readings_count,
                AVG(power_consumption_w) as avg_power_w,
                -- Сумма: каждая минута с потреблением = power_w * (1/60) часа = кВт*ч
                SUM(power_consumption_w * (1.0 / 60.0)) as total_consumption_kwh
            FROM power_status
            WHERE is_online = 1 AND power_consumption_w IS NOT NULL
        ".

(** The statement [getDailyPowerConsumption] builds. *)
Definition getDailyPowerConsumption_statement (deviceId startDate endDate : option string)
  : string * list Param :=
  let qp := (getDailyPowerConsumption_select, []) in
  let qp := push_if deviceId " AND device_id = ?" qp in
  let qp := push_if startDate " AND DATE(CONVERT_TZ(timestamp, '+00:00', '+02:00')) >= ?" qp in
  let qp := push_if endDate " AND DATE(CONVERT_TZ(timestamp, '+00:00', '+02:00')) <= ?" qp in
  (fst qp ++ " GROUP BY DATE(CONVERT_TZ(timestamp, '+00:00', '+02:00')), device_id, device_name ORDER BY date DESC, device_id",
   snd qp).

(** [getDailyPowerConsumption(deviceId = null, startDate = null, endDate = null)]. *)
Definition getDailyPowerConsumption (deviceId startDate endDate : option string) : D DbResult :=
  p <- getPool ;;
  try_catch
    (let qp := getDailyPowerConsumption_statement deviceId startDate endDate in
     rows <- execute p (fst qp) (snd qp) ;;
     ret rows)
    (fun error => throw error).

(** The statement of [getDailyPowerDetails]. *)
Definition getDailyPowerDetails_sql : string :=
  "
            SELECT 
                DATE_FORMAT(CONVERT_TZ(timestamp, '+00:00', '+02:00'), '%Y-%m-%d %H:%i') as time,
                timestamp,
                power_consumption_w,
                is_online
            FROM power_status
            WHERE device_id = ? AND DATE(CONVERT_TZ(timestamp, '+00:00', '+02:00')) = ?
            ORDER BY CONVERT_TZ(timestamp, '+00:00', '+02:00') ASC
        ".

(** [getDailyPowerDetails(deviceId, date)]. *)
Definition getDailyPowerDetails (deviceId date : option string) : D DbResult :=
  p <- getPool ;;
  try_catch
    (let query := getDailyPowerDetails_sql in
     rows <- execute p query [param_of deviceId; param_of date] ;;
     ret rows)
    (fun error => throw error).

(** The SELECT of [getHourlyData]. *)
Definition getHourlyData_select : string :=
  "
            SELECT 
                DATE_FORMAT(CONVERT_TZ(timestamp, '+00:00', '+02:00'), '%Y-%m-%d %H:00') as hour,
                DATE(CONVERT_TZ(timestamp, '+00:00', '+02:00')) as date,
                HOUR(CONVERT_TZ(timestamp, '+00:00', '+02:00')) as hour_num,
                device_id,
                device_name,
                COUNT(*) as total_checks,
                SUM(is_online) as minutes_online,
                COUNT(*) - SUM(is_online) as minutes_offline,
                ROUND((SUM(is_online) / COUNT(*)) * 100, 2) as availability_percent,
                AVG(CASE WHEN is_online = 1 AND power_consumption_w IS NOT NULL THEN power_consumption_w END) as avg_power_w,
                -- Для агрегированных данных: средняя мощность * количество минут онлайн / 60
                COALESCE(AVG(CASE WHEN is_online = 1 AND power_consumption_w IS NOT NULL THEN power_consumption_w END) * (SUM(is_online) / 60.0), 0) as total_consumption_kwh
            FROM power_status
            WHERE 1=1
        ".

(** The statement [getHourlyData] builds. *)
Definition getHourlyData_statement (deviceId startDate endDate : option string)
  : string * list Param :=
  let qp := (getHourlyData_select, []) in
  let qp := push_if deviceId " AND device_id = ?" qp in
  let qp := push_if startDate " AND DATE(timestamp) >= ?" qp in
  let qp := push_if endDate " AND DATE(timestamp) <= ?" qp in
  (fst qp ++ " GROUP BY DATE(CONVERT_TZ(timestamp, '+00:00', '+02:00')), HOUR(CONVERT_TZ(timestamp, '+00:00', '+02:00')), device_id, device_name ORDER BY date ASC, hour_num ASC, device_id",
   snd qp).

(** [getHourlyData(deviceId = null, startDate = null, endDate = null)]. *)
Definition getHourlyData (deviceId startDate endDate : option string) : D DbResult :=
  p <- getPool ;;
  try_catch
    (let qp := getHourlyData_statement deviceId startDate endDate in
     rows <- execute p (fst qp) (snd qp) ;;
     ret rows)
    (fun error => throw error).

(** The SELECT of [getTenMinuteData]. *)
Definition getTenMinuteData_select : string :=
  "
            SELECT 
                DATE_FORMAT(
                    DATE_ADD(
                        DATE_FORMAT(CONVERT_TZ(timestamp, '+00:00', '+02:00'), '%Y-%m-%d %H:%i'),
                        INTERVAL -MINUTE(CONVERT_TZ(timestamp, '+00:00', '+02:00')) % 10 MINUTE
                    ),
                    '%Y-%m-%d %H:%i'
                ) as ten_minute,
                DATE(CONVERT_TZ(timestamp, '+00:00', '+02:00')) as date,
                device_id,
                device_name,
                COUNT(*) as total_checks,
                SUM(is_online) as minutes_online,
                COUNT(*) - SUM(is_online) as minutes_offline,
                ROUND((SUM(is_online) / COUNT(*)) * 100, 2) as availability_percent,
                AVG(CASE WHEN is_online = 1 AND power_consumption_w IS NOT NULL THEN power_consumption_w END) as avg_power_w,
                -- Для агрегированных данных: средняя мощность * количество минут онлайн / 60 (чтобы получить кВт·ч)
                -- Используем COALESCE чтобы вернуть 0 если нет данных
                COALESCE(AVG(CASE WHEN is_online = 1 AND power_consumption_w IS NOT NULL THEN power_consumption_w END) * (SUM(is_online) / 60.0), 0) as total_consumption_kwh
            FROM power_status
            WHERE 1=1
        ".

(** The statement [getTenMinuteData] builds. *)
Definition getTenMinuteData_statement (deviceId startDate endDate : option string)
  : string * list Param :=
  let qp := (getTenMinuteData_select, []) in
  let qp := push_if deviceId " AND device_id = ?" qp in
  let qp := push_if startDate " AND DATE(CONVERT_TZ(timestamp, '+00:00', '+02:00')) >= ?" qp in
  let qp := push_if endDate " AND DATE(CONVERT_TZ(timestamp, '+00:00', '+02:00')) <= ?" qp in
  (fst qp ++ " GROUP BY DATE_FORMAT(DATE_ADD(DATE_FORMAT(CONVERT_TZ(timestamp, '+00:00', '+02:00'), '%Y-%m-%d %H:%i'), INTERVAL -MINUTE(CONVERT_TZ(timestamp, '+00:00', '+02:00')) % 10 MINUTE), '%Y-%m-%d %H:%i'), DATE(CONVERT_TZ(timestamp, '+00:00', '+02:00')), device_id, device_name ORDER BY ten_minute ASC, device_id",
   snd qp).

(** [getTenMinuteData(deviceId = null, startDate = null, endDate = null)]. *)
Definition getTenMinuteData (deviceId startDate endDate : option string) : D DbResult :=
  p <- getPool ;;
  try_catch
    (let qp := getTenMinuteData_statement deviceId startDate endDate in
     rows <- execute p (fst qp) (snd qp) ;;
     ret rows)
    (fun error => throw error).

(** The SELECT of [getMinuteData]. *)
Definition getMinuteData_select : string :=
  "
            SELECT 
                DATE_FORMAT(CONVERT_TZ(timestamp, '+00:00', '+02:00'), '%Y-%m-%d %H:%i') as minute,
                DATE_FORMAT(CONVERT_TZ(timestamp, '+00:00', '+02:00'), '%Y-%m-%d') as date,
                DATE_FORMAT(CONVERT_TZ(timestamp, '+00:00', '+02:00'), '%H:%i') as time,
                timestamp,
                device_id,
                device_name,
                is_online,
                CASE WHEN is_online = 1 THEN 100 ELSE 0 END as availability_percent,
                CASE WHEN is_online = 1 AND power_consumption_w IS NOT NULL THEN power_consumption_w ELSE NULL END as avg_power_w,
                CASE WHEN is_online = 1 AND power_consumption_w IS NOT NULL THEN power_consumption_w * (1.0 / 60.0) ELSE 0 END as total_consumption_kwh
            FROM power_status
            WHERE 1=1
        ".

(** The statement [getMinuteData] builds. *)
Definition getMinuteData_statement (deviceId startDate endDate : option string)
  : string * list Param :=
  let qp := (getMinuteData_select, []) in
  let qp := push_if deviceId " AND device_id = ?" qp in
  let qp := push_if startDate " AND DATE(CONVERT_TZ(timestamp, '+00:00', '+02:00')) >= ?" qp in
  let qp := push_if endDate " AND DATE(CONVERT_TZ(timestamp, '+00:00', '+02:00')) <= ?" qp in
  (fst qp ++ " ORDER BY CONVERT_TZ(timestamp, '+00:00', '+02:00') ASC, device_id",
   snd qp).

(** [getMinuteData(deviceId = null, startDate = null, endDate = null)]. *)
Definition getMinuteData (deviceId startDate endDate : option string) : D DbResult :=
  p <- getPool ;;
  try_catch
    (let qp := getMinuteData_statement deviceId startDate endDate in
     rows <- execute p (fst qp) (snd qp) ;;
     ret rows)
    (fun error => throw error).

(** The message of the TypeError raised by [rows[0].test] when there is no
    first row. *)
Definition TypeError_test : string :=
  "Cannot read properties of undefined (reading 'test')".

(** [rows[0].test === 1]; [None] is the TypeError. *)
Definition first_test_is_one (r : DbResult) : option bool :=
  match r with
  | Rows (row :: _) =>
      Some match find (fun cv => (fst cv =? "test")%string) row with
           | Some (_, VNum 1) => true
           | _ => false
           end
  | _ => None
  end.

(** [testConnection()]. *)
Definition testConnection : D bool :=
  try_catch
    (p <- getPool ;;
     rows <- execute p "SELECT 1 as test" [] ;;
     match first_test_is_one rows with
     | Some b => ret b
     | None => throw (new_Error TypeError_test)
     end)
    (fun error => ret false).

(** ** The query routes of the server *)

(** The query string of a request: each parameter is absent or a string. *)
Record ReqQuery := {
  q_deviceId : option string;
  q_startDate : option string;
  q_endDate : option string;
  q_days : option string;
  q_date : option string }.

(** The JSON replies of the routes. *)
Inductive ApiReply :=
| Ok200 (data : DbResult)
| BadRequest400 (error : string)
| Failure500 (error : string)
| HealthOk (database : string)
| HealthError500 (error : string).


Definition missing_dates : string :=
  "Требуются параметры startDate и endDate (YYYY-MM-DD)".

(** [x || null]. *)
Definition or_null (x : option string) : option string :=
  if Js.truthy_str x then x else None.

Section Routes.

(** [parseInt(text, 10)]. *)
Variable parseInt10 : string -> Number.

(** [GET /api/stats]. *)
Definition api_stats (q : ReqQuery) : D ApiReply :=
  try_catch
    (stats <- getStats (or_null (q_deviceId q)) (or_null (q_startDate q))
                (or_null (q_endDate q)) ;;
     ret (Ok200 stats))
    (fun error => ret (Failure500 (message error))).

(** [GET /api/daily]. *)
Definition api_daily (q : ReqQuery) : D ApiReply :=
  try_catch
    (let deviceId := or_null (q_deviceId q) in
     chartData <-
       (if Js.truthy_str (q_startDate q) && Js.truthy_str (q_endDate q)
        then getStats deviceId (q_startDate q) (q_endDate q)
        else
          let daysNum :=
            match q_days q with
            | Some text => if (text =? "")%string then Int 30
                           else parseInt10 text
            | None => Int 30
            end in
          getDailyChart deviceId daysNum) ;;
     ret (Ok200 chartData))
    (fun error => ret (Failure500 (message error))).




(** [GET /api/hourly]. *)
Definition api_hourly (q : ReqQuery) : D ApiReply :=
  try_catch
    (if negb (Js.truthy_str (q_startDate q))
        || negb (Js.truthy_str (q_endDate q))
     then ret (BadRequest400 missing_dates)
     else
       hourlyData <- getHourlyData (or_null (q_deviceId q))
                       (q_startDate q) (q_endDate q) ;;
       ret (Ok200 hourlyData))
    (fun error => ret (Failure500 (message error))).



(** [GET /health]. *)
Definition health : D ApiReply :=
  try_catch
    (dbConnected <- testConnection ;;
     ret (HealthOk (if dbConnected then "connected" else "disconnected")))
    (fun error => ret (HealthError500 (message error))).



(** ** Vocabulary of the statements *)

(** The number of occurrences of a character, and the placeholders of a
    statement. *)
Fixpoint count_char (c : ascii) (s : string) : nat :=
  match s with
  | EmptyString => 0
  | String x r => (if Ascii.eqb x c then 1 else 0) + count_char c r
  end.

Definition placeholders (query : string) : nat := count_char "?" query.

(** As many parameters as placeholders. *)
Definition well_formed (st : Statement) : Prop :=
  placeholders (text st) = List.length (params st).

(** The store at start-up. *)
Definition fresh (drv : nat -> Error + DbResult) : Store :=
  {| pool := None; pools_created := 0; driver := drv; executed := [] |}.

(** The exported functions of [db.js], as calls. *)
Inductive Call :=
| SavePowerStatus (deviceId : string) (deviceName : option string)
    (isOnline : bool) (responseTimeMs : option Z)
    (powerConsumptionW : option Q) (errorMessage : option string)
| GetStats (deviceId startDate endDate : option string)
| GetDailyDetails (deviceId date : option string)
| GetDailyChart (deviceId : option string) (days : Number)
| GetOverallStats (deviceId startDate endDate : option string)
| GetDailyPowerConsumption (deviceId startDate endDate : option string)
| GetDailyPowerDetails (deviceId date : option string)
| GetHourlyData (deviceId startDate endDate : option string)
| GetTenMinuteData (deviceId startDate endDate : option string)
| GetMinuteData (deviceId startDate endDate : option string)
| TestConnection
| GetPool
| ClosePool.

(** The store after a call, whatever it returned or threw. *)
Definition perform (c : Call) (s : Store) : Store :=
  match c with
  | SavePowerStatus a b c d e f => snd (savePowerStatus a b c d e f s)
  | GetStats a b c => snd (getStats a b c s)
  | GetDailyDetails a b => snd (getDailyDetails a b s)
  | GetDailyChart a n => snd (getDailyChart a n s)
  | GetOverallStats a b c => snd (getOverallStats a b c s)
  | GetDailyPowerConsumption a b c => snd (getDailyPowerConsumption a b c s)
  | GetDailyPowerDetails a b => snd (getDailyPowerDetails a b s)
  | GetHourlyData a b c => snd (getHourlyData a b c s)
  | GetTenMinuteData a b c => snd (getTenMinuteData a b c s)
  | GetMinuteData a b c => snd (getMinuteData a b c s)
  | TestConnection => snd (testConnection s)
  | GetPool => snd (getPool s)
  | ClosePool => snd (closePool s)
  end.

Definition run (calls : list Call) (s : Store) : Store :=
  fold_left (fun s c => perform c s) calls s.

Definition is_close (c : Call) : bool :=
  match c with
  | ClosePool => true
  | _ => false
  end.

(** The store after [getPool()], with one more statement in the log. *)
Definition logged (st : string * list Param) (s : Store) : Store :=
  let s1 := snd (getPool s) in
  {| pool := pool s1; pools_created := pools_created s1;
     driver := driver s1;
     executed := {| on_pool := match pool s with
                               | Some p => p
                               | None => pools_created s
                               end;
                    text := fst st; params := snd st |} :: executed s |}.

(** How the driver's outcome completes a query function. *)
Definition outcome (s : Store) : Completion DbResult :=
  match driver s (List.length (executed s)) with
  | inl e => Thrown e
  | inr r => Returned r
  end.

(** An argument replaced by a fixed text when it is given. *)
Definition mark (x : option string) : option string :=
  if Js.truthy_str x then Some "x" else None.

(** The parameters of the arguments that are given. *)
Definition given (xs : list (option string)) : list Param :=
  flat_map (fun x => if Js.truthy_str x then [param_of x] else []) xs.

(** The statement a call sends, if it sends one. *)
Definition statement_of (c : Call) : option (string * list Param) :=
  match c with
  | SavePowerStatus deviceId deviceName isOnline responseTimeMs
      powerConsumptionW errorMessage =>
      Some (savePowerStatus_sql,
            [PStr deviceId;
             param_of deviceName;
             PNum (if isOnline then 1 else 0);
             match responseTimeMs with Some t => PNum t | None => PNull end;
             match powerConsumptionW with
             | Some q => PRat q
             | None => PNull
             end;
             param_of errorMessage])
  | GetStats a b c => Some (getStats_statement a b c)
  | GetDailyDetails a b =>
      Some (getDailyDetails_sql, [param_of a; param_of b])
  | GetDailyChart a n => Some (getDailyChart_statement a n)
  | GetOverallStats a b c => Some (getOverallStats_statement a b c)
  | GetDailyPowerConsumption a b c =>
      Some (getDailyPowerConsumption_statement a b c)
  | GetDailyPowerDetails a b =>
      Some (getDailyPowerDetails_sql, [param_of a; param_of b])
  | GetHourlyData a b c => Some (getHourlyData_statement a b c)
  | GetTenMinuteData a b c => Some (getTenMinuteData_statement a b c)
  | GetMinuteData a b c => Some (getMinuteData_statement a b c)
  | TestConnection => Some ("SELECT 1 as test", [])
  | GetPool => None
  | ClosePool => None
  end.

(** The pools a store can still come to create without a [closePool()]:
    the ones created, and one more when there is no pool. *)
Definition pool_budget (s : Store) : nat :=
  pools_created s + match pool s with None => 1 | Some _ => 0 end.

(** The pool variable holds the pool created last, and every statement
    ran on a pool that was created. *)
Definition pool_invariant (s : Store) : Prop :=
  match pool s with
  | Some p => S p = pools_created s
  | None => True
  end
  /\ Forall (fun st => (on_pool st < pools_created s)%nat) (executed s).


(** * Properties of the database layer *)

Lemma count_char_app (c : ascii) (a b : string) :
  count_char c (a ++ b) = (count_char c a + count_char c b)%nat.
Proof.
  induction a as [|x r IH]; simpl; [reflexivity |]. rewrite IH. lia.
Qed.

Definition balanced (qp : string * list Param) : Prop :=
  placeholders (fst qp) = List.length (snd qp).

Lemma push_if_balanced (x : option string) (clause : string)
    (qp : string * list Param) :
  placeholders clause = 1%nat -> balanced qp -> balanced (push_if x clause qp).
Proof.
  unfold balanced, push_if, placeholders. intros C B.
  destruct (Js.truthy_str x); [| exact B]. simpl.
  rewrite count_char_app, length_app, C, B. reflexivity.
Qed.

Lemma filtered_balanced (select c1 c2 c3 tail : string)
    (a b c : option string) :
  placeholders select = 0%nat ->
  placeholders c1 = 1%nat -> placeholders c2 = 1%nat ->
  placeholders c3 = 1%nat -> placeholders tail = 0%nat ->
  balanced
    (fst (push_if c c3 (push_if b c2 (push_if a c1 (select, [])))) ++ tail,
     snd (push_if c c3 (push_if b c2 (push_if a c1 (select, []))))).
Proof.
  intros H0 H1 H2 H3 Ht.
  assert (B : balanced (push_if c c3 (push_if b c2
                                        (push_if a c1 (select, []))))).
  { repeat apply push_if_balanced; try assumption; try exact H0. }
  unfold balanced, placeholders in *. cbn [fst snd].
  rewrite count_char_app, Ht, B. lia.
Qed.

Lemma getDailyChart_balanced (a : option string) (n : Number) :
  balanced (getDailyChart_statement a n).
Proof.
  unfold balanced, placeholders, getDailyChart_statement.
  assert (T1 : count_char "?" getDailyChart_today_before = 0%nat)
    by (vm_compute; reflexivity).
  assert (T2 : count_char "?" getDailyChart_today_after = 0%nat)
    by (vm_compute; reflexivity).
  assert (R1 : count_char "?" getDailyChart_range_before = 1%nat)
    by (vm_compute; reflexivity).
  assert (R2 : count_char "?" getDailyChart_range_after = 0%nat)
    by (vm_compute; reflexivity).
  destruct n as [[| |]|]; cbn [fst snd];
    rewrite !count_char_app, ?T1, ?T2, ?R1, ?R2;
    destruct (Js.truthy_str a); reflexivity.
Qed.

Lemma statement_of_balanced (c : Call) (st : string * list Param) :
  statement_of c = Some st -> balanced st.
Proof.
  destruct c; unfold statement_of; intros H;
    first [discriminate H | injection H as <-].
  - unfold balanced, placeholders. cbn [fst snd List.length].
    vm_compute. reflexivity.
  - unfold getStats_statement. cbv zeta.
    apply filtered_balanced; vm_compute; reflexivity.
  - unfold balanced, placeholders. cbn [fst snd List.length].
    vm_compute. reflexivity.
  - apply getDailyChart_balanced.
  - unfold getOverallStats_statement. cbv zeta.
    apply filtered_balanced; vm_compute; reflexivity.
  - unfold getDailyPowerConsumption_statement. cbv zeta.
    apply filtered_balanced; vm_compute; reflexivity.
  - unfold balanced, placeholders. cbn [fst snd List.length].
    vm_compute. reflexivity.
  - unfold getHourlyData_statement. cbv zeta.
    apply filtered_balanced; vm_compute; reflexivity.
  - unfold getTenMinuteData_statement. cbv zeta.
    apply filtered_balanced; vm_compute; reflexivity.
  - unfold getMinuteData_statement. cbv zeta.
    apply filtered_balanced; vm_compute; reflexivity.
  - vm_compute. reflexivity.
Qed.

(** A query function: the pool, one statement, and the driver's outcome
    to the caller. *)
Lemma query_eq (st : string * list Param) (s : Store) :
  bind getPool
    (fun p =>
       try_catch
         (bind (execute p (fst st) (snd st)) (fun rows => ret rows))
         (fun error => throw error)) s
  = (outcome s, logged st s).
Proof.
  unfold outcome, logged, bind, try_catch, execute, ret, throw, getPool.
  destruct (pool s) as [p|]; cbn [fst snd pool pools_created driver executed];
    destruct (driver s (List.length (executed s))); reflexivity.
Qed.

Lemma perform_eq (c : Call) (s : Store) :
  perform c s =
  match statement_of c with
  | Some st => logged st s
  | None => if is_close c then snd (closePool s) else snd (getPool s)
  end.
Proof.
  destruct c; cbn [perform statement_of is_close]; try reflexivity.
  - unfold savePowerStatus.
    match goal with
    | |- snd (bind getPool ?k s) = logged ?st s =>
        unfold logged, bind, try_catch, execute, ret, throw, getPool;
        destruct (pool s);
        cbn [fst snd pool pools_created driver executed];
        destruct (driver s (List.length (executed s))); reflexivity
    end.
  - unfold getStats. cbv zeta. rewrite query_eq. reflexivity.
  - unfold getDailyDetails. cbv zeta.
    exact (f_equal snd (query_eq (_, _) s)).
  - unfold getDailyChart. cbv zeta. rewrite query_eq. reflexivity.
  - unfold getOverallStats. cbv zeta. rewrite query_eq. reflexivity.
  - unfold getDailyPowerConsumption. cbv zeta. rewrite query_eq. reflexivity.
  - unfold getDailyPowerDetails. cbv zeta.
    exact (f_equal snd (query_eq (_, _) s)).
  - unfold getHourlyData. cbv zeta. rewrite query_eq. reflexivity.
  - unfold getTenMinuteData. cbv zeta. rewrite query_eq. reflexivity.
  - unfold getMinuteData. cbv zeta. rewrite query_eq. reflexivity.
  - unfold testConnection, logged, bind, try_catch, execute, ret, throw,
      getPool.
    destruct (pool s); cbn [fst snd pool pools_created driver executed];
      destruct (driver s (List.length (executed s))) as [e|r];
      try reflexivity;
      destruct (first_test_is_one r); reflexivity.
Qed.

Lemma run_app (calls : list Call) (c : Call) (s : Store) :
  run (calls ++ [c]) s = perform c (run calls s).
Proof. unfold run. rewrite fold_left_app. reflexivity. Qed.

(** X19: whatever functions of [db.js] are called, in whatever order and
    with whatever arguments, every statement that reaches the driver has
    as many parameters as it has placeholders, and no call sends more
    than one statement. *)
Theorem statements_well_formed (calls : list Call)
    (drv : nat -> Error + DbResult) :
  Forall well_formed (executed (run calls (fresh drv)))
  /\ (List.length (executed (run calls (fresh drv))) <= List.length calls)%nat.
Proof.
  induction calls as [|c calls IH] using rev_ind.
  - split; [constructor | simpl; lia].
  - destruct IH as [W L]. rewrite run_app, perform_eq, length_app.
    destruct (statement_of c) as [st|] eqn:E.
    + split.
      * constructor; [| exact W].
        exact (statement_of_balanced c st E).
      * simpl. lia.
    + destruct (is_close c);
        [unfold closePool | unfold getPool];
        destruct (pool (run calls (fresh drv))); cbn [snd executed];
        (split; [exact W | lia]).
Qed.

(** X20: the text of a statement is fixed by which arguments are given,
    not by their values: replacing every given argument by the text [x]
    leaves the text as it is; and the parameters are the given arguments,
    in the order deviceId, startDate, endDate (for [getDailyChart], the
    number of days first unless it is 0). *)
Theorem statement_text_is_fixed (a b c : option string) (n : Number) :
  (fst (getStats_statement a b c)
   = fst (getStats_statement (mark a) (mark b) (mark c))
   /\ snd (getStats_statement a b c) = given [a; b; c])
  /\ (fst (getOverallStats_statement a b c)
      = fst (getOverallStats_statement (mark a) (mark b) (mark c))
      /\ snd (getOverallStats_statement a b c) = given [a; b; c])
  /\ (fst (getDailyPowerConsumption_statement a b c)
      = fst (getDailyPowerConsumption_statement (mark a) (mark b) (mark c))
      /\ snd (getDailyPowerConsumption_statement a b c) = given [a; b; c])
  /\ (fst (getHourlyData_statement a b c)
      = fst (getHourlyData_statement (mark a) (mark b) (mark c))
      /\ snd (getHourlyData_statement a b c) = given [a; b; c])
  /\ (fst (getTenMinuteData_statement a b c)
      = fst (getTenMinuteData_statement (mark a) (mark b) (mark c))
      /\ snd (getTenMinuteData_statement a b c) = given [a; b; c])
  /\ (fst (getMinuteData_statement a b c)
      = fst (getMinuteData_statement (mark a) (mark b) (mark c))
      /\ snd (getMinuteData_statement a b c) = given [a; b; c])
  /\ (fst (getDailyChart_statement a n)
      = fst (getDailyChart_statement (mark a)
               match n with Int 0 => Int 0 | _ => Int 1 end)
      /\ snd (getDailyChart_statement a n)
         = (match n with Int 0 => [] | _ => [param_of_number n] end
            ++ given [a])%list).
Proof.
  assert (M : forall x, Js.truthy_str (mark x) = Js.truthy_str x).
  { intros x. unfold mark. destruct (Js.truthy_str x); reflexivity. }
  unfold getStats_statement, getOverallStats_statement,
    getDailyPowerConsumption_statement, getHourlyData_statement,
    getTenMinuteData_statement, getMinuteData_statement,
    getDailyChart_statement, push_if, given.
  cbv zeta. rewrite !M. simpl flat_map.
  destruct (Js.truthy_str a), (Js.truthy_str b), (Js.truthy_str c);
    cbn [fst snd app];
    (repeat split; try reflexivity; destruct n as [[| |]|]; reflexivity).
Qed.

Lemma logged_budget (st : string * list Param) (s : Store) :
  pool_budget (logged st s) = pool_budget s
  /\ (pool_invariant s -> pool_invariant (logged st s)).
Proof.
  unfold pool_budget, pool_invariant, logged, getPool.
  destruct (pool s) as [p|] eqn:Ps;
    cbn [snd pool pools_created executed on_pool]; rewrite ?Ps.
  - split; [reflexivity |]. intros [P F]. split; [exact P |].
    constructor; [simpl; lia | exact F].
  - split; [lia |]. intros [_ F]. split; [reflexivity |].
    constructor; [simpl; lia |].
    eapply Forall_impl; [| exact F]. simpl. intros; lia.
Qed.

Lemma perform_budget (c : Call) (s : Store) :
  (pool_budget (perform c s)
   <= pool_budget s + if is_close c then 1 else 0)%nat
  /\ (pool_invariant s -> pool_invariant (perform c s)).
Proof.
  rewrite perform_eq. destruct (statement_of c) as [st|].
  - destruct (logged_budget st s) as [B I]. split; [lia | exact I].
  - unfold pool_budget, pool_invariant.
    destruct (is_close c); [unfold closePool | unfold getPool];
      destruct (pool s) as [p|] eqn:Ps;
      cbn [snd pool pools_created executed]; rewrite ?Ps;
      (split; [lia |]); intros [P F]; (split; [auto |]);
      try exact F.
    eapply Forall_impl; [| exact F]. simpl. intros; lia.
Qed.

(** X21: the pool is created on first use and then reused. After any
    calls from start-up, the pools created are at most one more than the
    calls of [closePool()], every statement ran on a pool that had been
    created, and when [closePool()] was never called every statement ran
    on the one pool. *)
Theorem pool_created_once (calls : list Call)
    (drv : nat -> Error + DbResult) :
  let s := run calls (fresh drv) in
  (pools_created s <= 1 + List.length (filter is_close calls))%nat
  /\ Forall (fun st => (on_pool st < pools_created s)%nat) (executed s)
  /\ (filter is_close calls = [] ->
      Forall (fun st => on_pool st = 0%nat) (executed s)).
Proof.
  cbv zeta.
  assert (H : (pool_budget (run calls (fresh drv))
               <= 1 + List.length (filter is_close calls))%nat
              /\ pool_invariant (run calls (fresh drv))).
  { induction calls as [|c calls IH] using rev_ind.
    - split; [unfold pool_budget; simpl; lia |].
      split; [exact I | constructor].
    - destruct IH as [B Inv]. rewrite run_app, filter_app, length_app.
      destruct (perform_budget c (run calls (fresh drv))) as [B' I'].
      split; [| exact (I' Inv)].
      simpl filter. destruct (is_close c); simpl List.length in *; lia. }
  destruct H as [B [_ F]].
  assert (P : (pools_created (run calls (fresh drv))
               <= 1 + List.length (filter is_close calls))%nat)
    by (unfold pool_budget in B; lia).
  split; [exact P |]. split; [exact F |].
  intros N. rewrite N in P. simpl in P.
  eapply Forall_impl; [| exact F]. simpl. intros; lia.
Qed.

Lemma testConnection_helper (s : Store) :
  exists b s',
    testConnection s = (Returned b, s')
    /\ (b = true <->
        exists r,
          driver s (List.length (executed s)) = inr r
          /\ first_test_is_one r = Some true).
Proof.
  unfold testConnection, bind, try_catch, getPool, execute, ret, throw.
  destruct (pool s) as [p|]; cbn [fst snd pool pools_created driver executed];
    destruct (driver s (List.length (executed s))) as [e|r] eqn:Dr;
    try (eexists; eexists; split; [reflexivity |];
         split; [discriminate | intros [r [H _]]; discriminate]);
    destruct (first_test_is_one r) as [[|]|] eqn:T;
    eexists; eexists; (split; [reflexivity |]);
    split; intros H; try discriminate; try reflexivity;
    try (exists r; split; [reflexivity | exact T]);
    try (destruct H as [r' [H1 H2]]; inversion H1; subst; congruence).
Qed.

(** X22: [testConnection()] never throws. It returns [true] exactly when
    the driver resolves with rows whose first row has [test = 1], and
    [false] in every other case: a rejection, no row, another value. *)
Theorem testConnection_never_throws (s : Store) :
  exists b s',
    testConnection s = (Returned b, s')
    /\ (b = true <->
        exists r,
          driver s (List.length (executed s)) = inr r
          /\ first_test_is_one r = Some true).
Proof. exact (testConnection_helper s). Qed.

(** * Properties of the query routes *)




(** X24: [GET /health] always replies with status [ok]: the error reply
    of its [catch] is never sent, because [testConnection()] does not
    throw. It reports [connected] exactly when the driver resolves the
    test statement with [test = 1], and [disconnected] otherwise. *)
Theorem health_always_ok (s : Store) :
  exists database s',
    health s = (Returned (HealthOk database), s')
    /\ (database = "connected" \/ database = "disconnected")
    /\ (database = "connected" <->
        exists r,
          driver s (List.length (executed s)) = inr r
          /\ first_test_is_one r = Some true).
Proof.
  destruct (testConnection_helper s) as [b [s' [E I]]].
  unfold health, try_catch, bind, ret. rewrite E.
  eexists. eexists. split; [reflexivity |].
  destruct b.
  - split; [left; reflexivity |]. split; intros _;
      [apply I; reflexivity | reflexivity].
  - split; [right; reflexivity |]. split; [discriminate |].
    intros H. apply I in H. discriminate.
Qed.

End Routes.

(** ** Scenarios *)

(** A driver that resolves every statement with one row. *)
Definition driver_up (n : nat) : Error + DbResult :=
  inr (Rows [[("test", VNum 1)]]).

(** A driver that rejects every statement. *)
Definition driver_down (n : nat) : Error + DbResult :=
  inl {| message := "connect ECONNREFUSED";
         err_code := Some "ECONNREFUSED";
         response := None |}.

(** A stand-in for [parseInt]: the length of the text. *)
Definition text_length (text : string) : Number :=
  Int (Z.of_nat (String.length text)).

(** A request for the statistics of one device up to a day binds two
    parameters; a request without dates for the hourly data is refused
    before the database is reached; a rejected statement gives the reply
    500 with the driver's message. *)
Example routes_in_action :
  map params
    (executed
       (snd (api_stats {| q_deviceId := Some "d1"; q_startDate := None;
                          q_endDate := Some "2024-05-01";
                          q_days := None; q_date := None |}
               (fresh driver_up))))
  = [[PStr "d1"; PStr "2024-05-01"]]
  /\ api_hourly {| q_deviceId := Some "d1"; q_startDate := None;
                   q_endDate := None; q_days := None; q_date := None |}
       (fresh driver_up)
     = (Returned (BadRequest400 missing_dates), fresh driver_up)
  /\ fst (api_daily text_length
            {| q_deviceId := None; q_startDate := None; q_endDate := None;
               q_days := Some "7 days"; q_date := None |}
            (fresh driver_down))
     = Returned (Failure500 "connect ECONNREFUSED")
  /\ fst (health (fresh driver_down)) = Returned (HealthOk "disconnected")
  /\ fst (health (fresh driver_up)) = Returned (HealthOk "connected").
Proof. repeat split; vm_compute; reflexivity. Qed.

End Db.
